(** * Web-based CAD viewer: the model viewer, its load lifecycle and the model list

    A shallow embedding of [src/components/ModelViewer] (the [SceneSetup],
    [Model] and [ModelViewer] components), of the handlers of [App] and of
    [ModelList.handleDelete], followed by the properties of the specification
    that concern them.

    Conventions.
    - A JavaScript [number] is read as a real number ([R]): rounding, NaN and
      the infinities of IEEE arithmetic are not modelled.  Every [/] that the
      component code itself evaluates is recorded, by its divisor, in a log
      returned next to the result, so that "no division by zero" is a
      statement about that log.
    - A React component is a record of its hook state; an event handler, an
      effect or a promise continuation is a function from state to state.  A
      closure keeps the values of the render that created it, so what a
      closure captured is stored explicitly.
    - three.js is not part of the repository: the few functions the code calls
      ([Box3], [Vector3.normalize], [computeVertexNormals], the material
      defaults, the placement of an [Object3D]) are written out in
      [Module Three] after their documented behaviour. *)

From Stdlib Require Import Reals Lra List Ascii String.
From stdpp Require Import gmap strings pretty.
Import ListNotations.

Open Scope R_scope.

(* ================================================================== *)
(** ** three.js: vectors, boxes, geometries, materials *)
(* ================================================================== *)

Module Three.

Record Vector3 := V3 { vx : R; vy : R; vz : R }.

Definition vzero : Vector3 := V3 0 0 0.
Definition vone : Vector3 := V3 1 1 1.

Definition vadd (a b : Vector3) : Vector3 :=
  V3 (vx a + vx b) (vy a + vy b) (vz a + vz b).
Definition vsub (a b : Vector3) : Vector3 :=
  V3 (vx a - vx b) (vy a - vy b) (vz a - vz b).
Definition vmul (a b : Vector3) : Vector3 :=
  V3 (vx a * vx b) (vy a * vy b) (vz a * vz b).
Definition multiplyScalar (a : Vector3) (s : R) : Vector3 :=
  V3 (vx a * s) (vy a * s) (vz a * s).
Definition vmin (a b : Vector3) : Vector3 :=
  V3 (Rmin (vx a) (vx b)) (Rmin (vy a) (vy b)) (Rmin (vz a) (vz b)).
Definition vmax (a b : Vector3) : Vector3 :=
  V3 (Rmax (vx a) (vx b)) (Rmax (vy a) (vy b)) (Rmax (vz a) (vz b)).
Definition cross (a b : Vector3) : Vector3 :=
  V3 (vy a * vz b - vz a * vy b)
     (vz a * vx b - vx a * vz b)
     (vx a * vy b - vy a * vx b).
Definition vlength (a : Vector3) : R :=
  sqrt (vx a * vx a + vy a * vy a + vz a * vz a).

(** [Vector3.divideScalar(s)] is [multiplyScalar(1 / s)]. *)
Definition divideScalar (a : Vector3) (s : R) : Vector3 :=
  multiplyScalar a (1 / s).

(** [Vector3.normalize()] is [divideScalar(length() || 1)]. *)
Definition normalize (a : Vector3) : Vector3 :=
  let l := vlength a in
  divideScalar a (if Req_dec_T l 0 then 1 else l).

(** [Math.max(a, b, c)]. *)
Definition max3 (v : Vector3) : R := Rmax (Rmax (vx v) (vy v)) (vz v).

(** [Box3]: empty, or spanned by a minimum and a maximum corner. *)
Inductive Box3 :=
| EmptyBox
| Box (bmin bmax : Vector3).

Definition expandByPoint (b : Box3) (p : Vector3) : Box3 :=
  match b with
  | EmptyBox => Box p p
  | Box mn mx => Box (vmin mn p) (vmax mx p)
  end.

Definition expandByPoints (b : Box3) (ps : list Vector3) : Box3 :=
  fold_left expandByPoint ps b.

Definition setFromPoints (ps : list Vector3) : Box3 :=
  expandByPoints EmptyBox ps.

(** [getCenter] and [getSize] answer (0,0,0) on the empty box. *)
Definition getCenter (b : Box3) : Vector3 :=
  match b with
  | EmptyBox => vzero
  | Box mn mx => multiplyScalar (vadd mn mx) 0.5
  end.

Definition getSize (b : Box3) : Vector3 :=
  match b with
  | EmptyBox => vzero
  | Box mn mx => vsub mx mn
  end.

(** Materials, with the defaults of [THREE.Material]. *)
Inductive Side := FrontSide | BackSide | DoubleSide.
Inductive MaterialClass := MeshStandardMaterial | MeshPhongMaterial.

Record Material := {
  mat_class : MaterialClass;
  mat_color : string;
  mat_metalness : option R;
  mat_roughness : option R;
  mat_wireframe : bool;
  mat_opacity : R;
  mat_transparent : bool;
  mat_depthWrite : bool;
  mat_side : Side
}.


Definition set_color (m : Material) (color : string) : Material :=
  {| mat_class := mat_class m; mat_color := color;
     mat_metalness := mat_metalness m; mat_roughness := mat_roughness m;
     mat_wireframe := mat_wireframe m; mat_opacity := mat_opacity m;
     mat_transparent := mat_transparent m; mat_depthWrite := mat_depthWrite m;
     mat_side := mat_side m |}.

(** A non-indexed [BufferGeometry]: the loaders used here deliver triangle
    soups. *)
Record BufferGeometry := {
  attr_position : list Vector3;
  attr_normal : option (list Vector3)
}.

(** [computeVertexNormals] on a non-indexed geometry: the three corners of
    each triangle receive the triangle's face normal
    [(pC - pB) x (pA - pB)], and [normalizeNormals] then scales every normal
    to unit length.  Corners of an incomplete last triangle are left at
    zero here (they are NaN in JavaScript). *)
Fixpoint faceNormals (ps : list Vector3) : list Vector3 :=
  match ps with
  | pA :: pB :: pC :: rest =>
      let cb := cross (vsub pC pB) (vsub pA pB) in
      cb :: cb :: cb :: faceNormals rest
  | leftover => map (fun _ => vzero) leftover
  end.

Definition computeVertexNormals (g : BufferGeometry) : BufferGeometry :=
  {| attr_position := attr_position g;
     attr_normal := Some (map normalize (faceNormals (attr_position g))) |}.

(** Position and scale of an [Object3D] (no rotation is ever set here): a
    local point [v] is drawn at [position + scale * v]. *)
Record Placement := { position : Vector3; scale : Vector3 }.

Definition defaultPlacement : Placement :=
  {| position := vzero; scale := vone |}.

Definition localToWorld (t : Placement) (v : Vector3) : Vector3 :=
  vadd (position t) (vmul (scale t) v).

Record Mesh := {
  geometry : BufferGeometry;
  material : Material;
  placement : Placement
}.

(** What [OBJLoader] hands over: a group whose children carry a geometry;
    a child is a [Mesh] or something else (line segments, points). *)
Record Child := {
  child_is_mesh : bool;
  child_geometry : BufferGeometry;
  child_material : Material
}.

Record Group := {
  group_placement : Placement;
  children : list Child
}.

(** [new Box3().setFromObject(obj)] for a freshly loaded group: all its
    children sit at their default placement. *)
Definition setFromObject (obj : Group) : Box3 :=
  fold_left (fun b c => expandByPoints b (attr_position (child_geometry c)))
            (children obj) EmptyBox.

End Three.

Import Three.

(* ================================================================== *)
(** ** View modes and materials ([Model.createMaterial]) *)
(* ================================================================== *)

(** [type ViewMode = 'normal' | 'wireframe' | 'x-ray'] *)
Inductive ViewMode := mode_normal | mode_wireframe | mode_xray.

(** [createMaterial(mode)], a closure over the [objectColor] prop.  Each
    branch passes some parameters to the constructor; the others keep the
    value [Three.defaultMaterial] gives them. *)
Definition createMaterial (objectColor : string) (mode : ViewMode) : Material :=
  match mode with
  | mode_wireframe =>
      {| mat_class := MeshStandardMaterial; mat_color := objectColor;
         mat_metalness := Some 0.3; mat_roughness := Some 0.5;
         mat_wireframe := true;
         mat_opacity := 1; mat_transparent := false; mat_depthWrite := true;
         mat_side := FrontSide |}
  | mode_xray =>
      {| mat_class := MeshPhongMaterial; mat_color := objectColor;
         mat_metalness := None; mat_roughness := None;
         mat_wireframe := false;
         mat_opacity := 0.5; mat_transparent := true; mat_depthWrite := false;
         mat_side := DoubleSide |}
  | mode_normal =>
      {| mat_class := MeshStandardMaterial; mat_color := objectColor;
         mat_metalness := Some 0.3; mat_roughness := Some 0.5;
         mat_wireframe := false;
         mat_opacity := 1; mat_transparent := false; mat_depthWrite := true;
         mat_side := FrontSide |}
  end.

(** The part of a material the specification calls a [MaterialSpec]. *)
Record MaterialSpec := {
  wireframe : bool;
  opacity : R;
  doubleSided : bool;
  color : string
}.

Definition materialSpec (m : Material) : MaterialSpec :=
  {| wireframe := mat_wireframe m;
     opacity := mat_opacity m;
     doubleSided := match mat_side m with DoubleSide => true | _ => false end;
     color := mat_color m |}.

(* ================================================================== *)
(** ** Centering and scaling ([Model], the two loader callbacks) *)
(* ================================================================== *)

(** A value together with the divisors of the divisions evaluated on the way
    to it, in evaluation order. *)
Definition Logged (A : Type) : Type := (A * list R)%type.

(** The block shared, word for word, by the STL and the OBJ callback:
<<
  box.getCenter(center); box.getSize(size);
  o.position.set(-center.x, -center.y, -center.z);
  const maxDim = Math.max(size.x, size.y, size.z);
  if (maxDim > 0) { const scale = 2 / maxDim; o.scale.set(scale, scale, scale); }
>> *)
Definition centerAndScale (box : Box3) (o : Placement) : Logged Placement :=
  let center := getCenter box in
  let size := getSize box in
  let o1 := {| position := V3 (- vx center) (- vy center) (- vz center);
               scale := scale o |} in
  let maxDim := max3 size in
  if Rlt_dec 0 maxDim then
    let s := 2 / maxDim in
    ({| position := position o1; scale := V3 s s s |}, [maxDim])
  else (o1, []).

(** The success callback of [STLLoader.load], below its [isActive] guard. *)
Definition onStlLoaded (objectColor : string) (viewMode : ViewMode)
    (geometry : BufferGeometry) : Logged Mesh :=
  let geometry :=
    match attr_normal geometry with
    | None => computeVertexNormals geometry
    | Some _ => geometry
    end in
  let material := createMaterial objectColor viewMode in
  (* geometry.computeBoundingBox() *)
  let box := setFromPoints (attr_position geometry) in
  let '(p, divisors) := centerAndScale box defaultPlacement in
  ({| geometry := geometry; material := material; placement := p |}, divisors).

(** The success callback of [OBJLoader.load], below its [isActive] guard.
    The loader hands over a new group at the default placement; [objChildren]
    are its children. *)
Definition onObjLoaded (objectColor : string) (viewMode : ViewMode)
    (objChildren : list Child) : Logged Group :=
  let obj := {| group_placement := defaultPlacement; children := objChildren |} in
  let box := setFromObject obj in
  let '(p, divisors) := centerAndScale box (group_placement obj) in
  let retouch (c : Child) : Child :=
    if child_is_mesh c
    then {| child_is_mesh := true; child_geometry := child_geometry c;
            child_material := createMaterial objectColor viewMode |}
    else c in
  ({| group_placement := p; children := map retouch (children obj) |}, divisors).

(** The bounding box of what is drawn: the world positions of the vertices. *)
Definition worldBoxOfMesh (m : Mesh) : Box3 :=
  setFromPoints (map (localToWorld (placement m)) (attr_position (geometry m))).

Definition groupVertices (g : Group) : list Vector3 :=
  concat (map (fun c => attr_position (child_geometry c)) (children g)).

Definition worldBoxOfGroup (g : Group) : Box3 :=
  setFromPoints (map (localToWorld (group_placement g)) (groupVertices g)).

(** What a loader passes to its success callback, and the callback that
    goes with it. *)
Inductive Payload :=
| StlGeometry (g : BufferGeometry)
| ObjGroup (objChildren : list Child).

Inductive SceneObject :=
| AMesh (m : Mesh)
| AGroup (g : Group).

Definition onLoaded (objectColor : string) (viewMode : ViewMode)
    (payload : Payload) : Logged SceneObject :=
  match payload with
  | StlGeometry g =>
      let '(m, divisors) := onStlLoaded objectColor viewMode g in (AMesh m, divisors)
  | ObjGroup cs =>
      let '(g, divisors) := onObjLoaded objectColor viewMode cs in (AGroup g, divisors)
  end.




Definition payloadVertices (payload : Payload) : list Vector3 :=
  match payload with
  | StlGeometry g => attr_position g
  | ObjGroup cs => groupVertices {| group_placement := defaultPlacement; children := cs |}
  end.

Definition placementOf (o : SceneObject) : Placement :=
  match o with
  | AMesh m => placement m
  | AGroup g => group_placement g
  end.

Definition worldBox (o : SceneObject) : Box3 :=
  match o with
  | AMesh m => worldBoxOfMesh m
  | AGroup g => worldBoxOfGroup g
  end.

(** The specification of [normalize], in its words: for the bounding box
    [mn .. mx] of the vertices, [center = (min+max)/2],
    [maxDim = max(size.x, size.y, size.z)], [translation = -center],
    [scale = 2/maxDim] if [maxDim > 0] and then the transformed box has
    largest dimension 2, [scale = 1] otherwise and then nothing was divided;
    no division by zero in either case. *)
Definition NormalizeSpec (vertices : list Vector3) (p : Placement)
    (divisors : list R) (transformed : Box3) : Prop :=
  exists mn mx : Vector3,
    setFromPoints vertices = Box mn mx /\
    let center := V3 ((vx mn + vx mx) / 2) ((vy mn + vy mx) / 2) ((vz mn + vz mx) / 2) in
    let maxDim := max3 (vsub mx mn) in
    position p = V3 (- vx center) (- vy center) (- vz center) /\
    0 <= maxDim /\
    (0 < maxDim ->
       scale p = V3 (2 / maxDim) (2 / maxDim) (2 / maxDim) /\
       max3 (getSize transformed) = 2) /\
    (maxDim = 0 -> scale p = V3 1 1 1 /\ divisors = []) /\
    Forall (fun d => d <> 0) divisors.

(** Notions used to reason about boxes: the image of a box under
    [v |-> position + scale * v], a placement whose scale is [s] on all three
    axes, and the componentwise order of the corners of a box. *)
Definition moveBox (t : Placement) (b : Box3) : Box3 :=
  match b with
  | EmptyBox => EmptyBox
  | Box mn mx => Box (localToWorld t mn) (localToWorld t mx)
  end.

Definition uniform (t : Placement) (s : R) : Prop := scale t = V3 s s s.

Definition cornersOrdered (b : Box3) : Prop :=
  match b with
  | EmptyBox => True
  | Box mn mx => vx mn <= vx mx /\ vy mn <= vy mx /\ vz mn <= vz mx
  end.

(* ================================================================== *)
(** ** Camera framing ([SceneSetup], the auto-center effect) *)
(* ================================================================== *)

(** [cam_fov] is [Some degrees] for a [PerspectiveCamera] and [None] for any
    other camera; [cam_lookAt] is the last point given to [camera.lookAt]. *)
Record Camera := {
  cam_position : Vector3;
  cam_lookAt : option Vector3;
  cam_fov : option R
}.

Record SceneView := {
  controls_target : option Vector3;   (* [controlsRef.current], if set *)
  camera : Camera
}.

Definition fovRadians (c : Camera) : R :=
  match cam_fov c with
  | Some degrees => degrees * (PI / 180)
  | None => 45 * (PI / 180)
  end.

(** [(maxDim / 2) / Math.tan(fov / 2) * 2.5], with [fov] as computed on the
    line before it. *)
Definition frameDistance (c : Camera) (maxDim : R) : R :=
  (maxDim / 2) / tan (fovRadians c / 2) * 2.5.

(** From the bounding box to the new controls target and camera: the body
    of the effect once the box is known. *)
Definition frame (box : Box3) (s : SceneView) : Logged SceneView :=
  let center := getCenter box in
  let size := getSize box in
  let maxDim := max3 size in
  if Rlt_dec 0 maxDim then
    let distance := frameDistance (camera s) maxDim in
    let direction := normalize (V3 1 1 1) in
    ({| controls_target := Some center;
        camera := {| cam_position := vadd center (multiplyScalar direction distance);
                     cam_lookAt := Some center;
                     cam_fov := cam_fov (camera s) |} |},
     [180; 2; 2; tan (fovRadians (camera s) / 2)])
  else
    ({| controls_target := Some center; camera := camera s |}, []).

(** The whole effect: [meshes] are the world-space vertices of every mesh
    found by [scene.traverse]. *)
Definition autoCenter (meshes : list (list Vector3)) (s : SceneView) : Logged SceneView :=
  match controls_target s with
  | None => (s, [])
  | Some _ =>
      match meshes with
      | [] => (s, [])
      | _ => frame (fold_left expandByPoints meshes EmptyBox) s
      end
  end.

(* ================================================================== *)
(** ** The browser: object URLs and the requests sent to the model store *)
(* ================================================================== *)

Close Scope R_scope.

(** An object URL ([blob:...]) is a handle; the browser keeps the blob of
    every URL that was created and not yet revoked. *)
Definition ObjectURL := nat.
Definition Blob := string.

Inductive Fetch :=
| FetchDetails (id : string)     (* GET /api/models/<id>/ *)
| FetchDownload (id : string).   (* GET /api/models/<id>/download/ *)

Record Browser := {
  object_urls : gmap nat Blob;
  next_url : nat;
  revocations : list ObjectURL;  (* arguments of URL.revokeObjectURL, oldest first *)
  fetches : list Fetch           (* requests issued, oldest first *)
}.

Definition initialBrowser : Browser :=
  {| object_urls := ∅; next_url := 0; revocations := []; fetches := [] |}.

Definition createObjectURL (blob : Blob) (b : Browser) : ObjectURL * Browser :=
  (next_url b,
   {| object_urls := <[next_url b := blob]> (object_urls b);
      next_url := S (next_url b);
      revocations := revocations b;
      fetches := fetches b |}).

(** [URL.revokeObjectURL]: a URL that is not registered is ignored. *)
Definition revokeObjectURL (u : ObjectURL) (b : Browser) : Browser :=
  {| object_urls := delete u (object_urls b);
     next_url := next_url b;
     revocations := revocations b ++ [u];
     fetches := fetches b |}.

Definition fetch (f : Fetch) (b : Browser) : Browser :=
  {| object_urls := object_urls b;
     next_url := next_url b;
     revocations := revocations b;
     fetches := fetches b ++ [f] |}.

(** JavaScript truthiness of a [string | null]. *)
Definition truthy (s : option string) : bool :=
  match s with
  | None => false
  | Some s => negb (String.eqb s "")
  end.

(* ================================================================== *)
(** ** The [Model] component *)
(* ================================================================== *)

#[global] Instance ViewMode_eq_dec : EqDecision ViewMode.
Proof. solve_decision. Defined.

Record ModelProps := {
  url : ObjectURL;
  fileFormat : string;
  p_viewMode : ViewMode;
  p_objectColor : string
}.

Inductive Loader := STLLoader | OBJLoader.

(** One call of [loader.load] whose callbacks have not run yet.  [isActive] is
    the variable of that name of the effect run that made the call;
    [load_viewMode] and [load_objectColor] are the props that run closed
    over. *)
Record Load := {
  loader : Loader;
  load_url : ObjectURL;
  load_viewMode : ViewMode;
  load_objectColor : string;
  isActive : bool
}.

(** [model] is [null] or [modelRef.current]: it is set only by
    [setModel(modelRef.current)], so a flag says which.  [modelRef] holds the
    children of the one group [modelRef.current]. *)
Record ModelState := {
  props : ModelProps;
  model : bool;
  m_error : option string;
  modelRef : list SceneObject;
  loads : gmap nat Load;
  next_load : nat;
  effect_load : option nat;      (* the load whose [isActive] the cleanup clears *)
  load_calls : list (Loader * ObjectURL)   (* every [loader.load] so far *)
}.

Definition deactivate (l : Load) : Load :=
  {| loader := loader l; load_url := load_url l;
     load_viewMode := load_viewMode l; load_objectColor := load_objectColor l;
     isActive := false |}.

(** The cleanup of the load effect: [isActive = false]. *)
Definition loadCleanup (s : ModelState) : ModelState :=
  {| props := props s; model := model s; m_error := m_error s;
     modelRef := modelRef s;
     loads := match effect_load s with
              | Some k => alter deactivate k (loads s)
              | None => loads s
              end;
     next_load := next_load s; effect_load := None;
     load_calls := load_calls s |}.

(** The choice made by [loadModel]: strict equality with ['stl'], then with
    ['obj'], otherwise [setError]. *)
Definition loaderFor (fileFormat : string) : option Loader :=
  if String.eqb fileFormat "stl" then Some STLLoader
  else if String.eqb fileFormat "obj" then Some OBJLoader
  else None.

(** The load effect, for the props [p] of the render it belongs to.  For an
    unsupported format it calls [setError]; [m_error] holds the argument, and
    the render that follows throws (see [modelThrows]). *)
Definition loadEffect (p : ModelProps) (s : ModelState) : ModelState :=
  match loaderFor (fileFormat p) with
  | Some l =>
      {| props := props s; model := model s; m_error := m_error s;
         modelRef := modelRef s;
         loads := <[next_load s :=
                     {| loader := l; load_url := url p;
                        load_viewMode := p_viewMode p;
                        load_objectColor := p_objectColor p;
                        isActive := true |}]> (loads s);
         next_load := S (next_load s);
         effect_load := Some (next_load s);
         load_calls := load_calls s ++ [(l, url p)] |}
  | None =>
      {| props := props s; model := model s;
         m_error := Some ("Unsupported file format: " ++ fileFormat p)%string;
         modelRef := modelRef s;
         loads := loads s; next_load := next_load s; effect_load := None;
         load_calls := load_calls s |}
  end.

(** The colour effect: every mesh under [modelRef.current] gets
    [material.color.set(objectColor)]. *)
Definition recolor (c : string) (o : SceneObject) : SceneObject :=
  match o with
  | AMesh m =>
      AMesh {| geometry := geometry m; material := set_color (material m) c;
               placement := placement m |}
  | AGroup g =>
      AGroup {| group_placement := group_placement g;
                children :=
                  map (fun ch =>
                         if child_is_mesh ch
                         then {| child_is_mesh := true;
                                 child_geometry := child_geometry ch;
                                 child_material := set_color (child_material ch) c |}
                         else ch) (children g) |}
  end.

Definition colorEffect (p : ModelProps) (s : ModelState) : ModelState :=
  {| props := props s; model := model s; m_error := m_error s;
     modelRef := map (recolor (p_objectColor p)) (modelRef s);
     loads := loads s; next_load := next_load s;
     effect_load := effect_load s; load_calls := load_calls s |}.

Definition withProps (p : ModelProps) (s : ModelState) : ModelState :=
  {| props := p; model := model s; m_error := m_error s;
     modelRef := modelRef s; loads := loads s; next_load := next_load s;
     effect_load := effect_load s; load_calls := load_calls s |}.

(** First render: both effects run. *)
Definition mountModel (p : ModelProps) : ModelState :=
  colorEffect p
    (loadEffect p
       {| props := p; model := false; m_error := None; modelRef := [];
          loads := ∅; next_load := 0; effect_load := None; load_calls := [] |}).

(** The dependency list [[url, fileFormat, viewMode]] of the load effect. *)
Definition loadDepsChanged (p q : ModelProps) : bool :=
  negb (bool_decide (url p = url q)
        && bool_decide (fileFormat p = fileFormat q)
        && bool_decide (p_viewMode p = p_viewMode q)).

(** A render with new props: effects whose dependencies changed are cleaned
    up, then run again, in the order of the source. *)
Definition updateModel (p : ModelProps) (s : ModelState) : ModelState :=
  let old := props s in
  let s := withProps p s in
  let s := if loadDepsChanged old p then loadEffect p (loadCleanup s) else s in
  if bool_decide (p_objectColor old = p_objectColor p) then s else colorEffect p s.

Definition finishLoad (k : nat) (s : ModelState) : ModelState :=
  {| props := props s; model := model s; m_error := m_error s;
     modelRef := modelRef s; loads := delete k (loads s);
     next_load := next_load s; effect_load := effect_load s;
     load_calls := load_calls s |}.

(** The success callback of load [k].  Nothing happens when the payload is
    not of the loader's kind or the load is unknown. *)
Definition loaderSuccess (k : nat) (payload : Payload) (s : ModelState) : ModelState :=
  match loads s !! k with
  | None => s
  | Some l =>
      let shown : option SceneObject :=
        match loader l, payload with
        | STLLoader, StlGeometry _ | OBJLoader, ObjGroup _ =>
            Some (fst (onLoaded (load_objectColor l) (load_viewMode l) payload))
        | _, _ => None
        end in
      match shown with
      | None => s
      | Some o =>
          if isActive l then
            (* modelRef.current.clear(); modelRef.current.add(o); setModel(...) *)
            finishLoad k
              {| props := props s; model := true; m_error := m_error s;
                 modelRef := [o]; loads := loads s; next_load := next_load s;
                 effect_load := effect_load s; load_calls := load_calls s |}
          else finishLoad k s
      end
  end.

(** The error callback of load [k]: it does not look at [isActive].  It
    calls [setError]; [m_error] holds the argument, and the render that
    follows throws (see [modelThrows]). *)
Definition loaderError (k : nat) (s : ModelState) : ModelState :=
  match loads s !! k with
  | None => s
  | Some l =>
      finishLoad k
        {| props := props s; model := model s;
           m_error := Some (match loader l with
                            | STLLoader => "Failed to load STL model"
                            | OBJLoader => "Failed to load OBJ model"
                            end)%string;
           modelRef := modelRef s; loads := loads s; next_load := next_load s;
           effect_load := effect_load s; load_calls := load_calls s |}
  end.

(** The render of [Model] with [error] set.  The body then calls one hook
    more ([useEffect] under [if (error)]) than the mount render did, where
    [error] was null, and React throws "Rendered more hooks than during the
    previous render": the error view is never returned.  Every [setError] of
    the component passes a non-empty string, so the render that follows a
    [setError] throws. *)
Definition modelThrows (s : ModelState) : bool := truthy (m_error s).

(** A [Model] that has thrown is not rendered again and runs no effect; the
    record only keeps the props passed last. *)
Definition rerender (p : ModelProps) (s : ModelState) : ModelState :=
  if modelThrows s then withProps p s else updateModel p s.

(** A loader callback of a [Model] that has thrown finds no component to
    write to. *)
Definition whileMounted (f : ModelState -> ModelState) (s : ModelState) : ModelState :=
  if modelThrows s then s else f s.

(* ================================================================== *)
(** ** The [ModelViewer] component *)
(* ================================================================== *)

Record ModelInfo := { name : string; file_format : string }.

Inductive Theme := dark | light.

(** The state slices written by the load lifecycle ... *)
Record LoadSlice := {
  loading : bool;
  error : option string;
  modelUrl : option ObjectURL;
  modelInfo : option ModelInfo
}.

(** ... and the ones written by the controls of the viewer. *)
Record Settings := {
  theme : Theme;
  viewMode : ViewMode;
  autoRotate : bool;
  backgroundColor : string;
  objectColor : string
}.

(** [cleanup] is what the last run of the [[modelId]] effect returned:
    [None] when it returned nothing (no model selected), [Some u] for the
    closure [() => { if (modelUrl) URL.revokeObjectURL(modelUrl) }], where [u]
    is the [modelUrl] of the render that effect run belongs to. *)
Record ViewerState := {
  modelId : option string;
  slice : LoadSlice;
  settings : Settings;
  cleanup : option (option ObjectURL)
}.

(** A call of [fetchModel] suspended at one of its four [await]s. *)
Inductive Await :=
| await_details          (* await fetch(.../models/<id>/) *)
| await_details_json     (* await detailsResponse.json() *)
| await_download         (* await fetch(.../models/<id>/download/) *)
| await_blob.            (* await fileResponse.blob() *)

Record Invocation := { inv_modelId : string; inv_await : Await }.

(** The viewer, the [Model] it renders (if it renders one), the calls of
    [fetchModel] in flight, numbered in the order of their start, and the
    browser. *)
Record World := {
  viewer : ViewerState;
  child : option ModelState;
  inflight : gmap nat Invocation;
  next_inv : nat;
  browser : Browser
}.

Definition setLoading (b : bool) (l : LoadSlice) : LoadSlice :=
  {| loading := b; error := error l; modelUrl := modelUrl l; modelInfo := modelInfo l |}.
Definition setError (e : option string) (l : LoadSlice) : LoadSlice :=
  {| loading := loading l; error := e; modelUrl := modelUrl l; modelInfo := modelInfo l |}.
Definition setModelUrl (u : option ObjectURL) (l : LoadSlice) : LoadSlice :=
  {| loading := loading l; error := error l; modelUrl := u; modelInfo := modelInfo l |}.
Definition setModelInfo (i : option ModelInfo) (l : LoadSlice) : LoadSlice :=
  {| loading := loading l; error := error l; modelUrl := modelUrl l; modelInfo := i |}.

Definition setViewMode (m : ViewMode) (s : Settings) : Settings :=
  {| theme := theme s; viewMode := m; autoRotate := autoRotate s;
     backgroundColor := backgroundColor s; objectColor := objectColor s |}.
Definition setAutoRotate (b : bool) (s : Settings) : Settings :=
  {| theme := theme s; viewMode := viewMode s; autoRotate := b;
     backgroundColor := backgroundColor s; objectColor := objectColor s |}.
Definition setObjectColor (c : string) (s : Settings) : Settings :=
  {| theme := theme s; viewMode := viewMode s; autoRotate := autoRotate s;
     backgroundColor := backgroundColor s; objectColor := c |}.
Definition setBackgroundColor (c : string) (s : Settings) : Settings :=
  {| theme := theme s; viewMode := viewMode s; autoRotate := autoRotate s;
     backgroundColor := c; objectColor := objectColor s |}.
Definition toggleTheme (s : Settings) : Settings :=
  {| theme := match theme s with dark => light | light => dark end;
     viewMode := viewMode s; autoRotate := autoRotate s;
     backgroundColor := backgroundColor s; objectColor := objectColor s |}.

Definition withSlice (l : LoadSlice) (v : ViewerState) : ViewerState :=
  {| modelId := modelId v; slice := l; settings := settings v; cleanup := cleanup v |}.
Definition withSettings (s : Settings) (v : ViewerState) : ViewerState :=
  {| modelId := modelId v; slice := slice v; settings := s; cleanup := cleanup v |}.

(** What [ModelViewer] renders: the props of [Model] when the canvas with the
    model is shown, nothing on the "no model", "loading", "error" and "no
    model data" screens. *)
Definition renderModel (v : ViewerState) : option ModelProps :=
  if negb (truthy (modelId v)) then None
  else if loading (slice v) then None
  else if truthy (error (slice v)) then None
  else match modelUrl (slice v), modelInfo (slice v) with
       | Some u, Some i =>
           Some {| url := u; fileFormat := file_format i;
                   p_viewMode := viewMode (settings v);
                   p_objectColor := objectColor (settings v) |}
       | _, _ => None
       end.

(** React brings the child in line with the render: mount, update or unmount
    (the cleanup of an unmounted [Model] only clears an [isActive] that no
    state depends on any more). *)
Definition reconcile (w : World) : World :=
  {| viewer := viewer w;
     child := match renderModel (viewer w), child w with
              | None, _ => None
              | Some p, None => Some (mountModel p)
              | Some p, Some c => Some (rerender p c)
              end;
     inflight := inflight w; next_inv := next_inv w; browser := browser w |}.

Definition initialSlice : LoadSlice :=
  {| loading := false; error := None; modelUrl := None; modelInfo := None |}.

Definition initialSettings : Settings :=
  {| theme := dark; viewMode := mode_normal; autoRotate := false;
     backgroundColor := "#25262b"; objectColor := "#00b8d4" |}.

(** The [[modelId]] effect, run for the render whose state is [v] (so the
    [modelUrl] its cleanup closes over is the one of [v]). *)
Definition modelIdEffect (w : World) : World :=
  let v := viewer w in
  match modelId v with
  | Some id =>
      if String.eqb id "" then
        {| viewer := {| modelId := modelId v;
                        slice := setModelInfo None (setModelUrl None (slice v));
                        settings := settings v; cleanup := None |};
           child := child w; inflight := inflight w; next_inv := next_inv w;
           browser := browser w |}
      else
        (* fetchModel(), up to its first await *)
        {| viewer := {| modelId := modelId v;
                        slice := setError None (setLoading true (slice v));
                        settings := settings v;
                        cleanup := Some (modelUrl (slice v)) |};
           child := child w;
           inflight := <[next_inv w := {| inv_modelId := id; inv_await := await_details |}]>
                         (inflight w);
           next_inv := S (next_inv w);
           browser := fetch (FetchDetails id) (browser w) |}
  | None =>
      {| viewer := {| modelId := modelId v;
                      slice := setModelInfo None (setModelUrl None (slice v));
                      settings := settings v; cleanup := None |};
         child := child w; inflight := inflight w; next_inv := next_inv w;
         browser := browser w |}
  end.

(** The cleanup registered by the last effect run, on the browser. *)
Definition runCleanup (v : ViewerState) (b : Browser) : Browser :=
  match cleanup v with
  | Some (Some u) => revokeObjectURL u b
  | _ => b
  end.

Definition mount (id : option string) : World :=
  reconcile
    (modelIdEffect
       {| viewer := {| modelId := id; slice := initialSlice;
                       settings := initialSettings; cleanup := None |};
          child := None; inflight := ∅; next_inv := 0;
          browser := initialBrowser |}).

(** The component is removed: its last cleanup runs.  What is left is the
    browser. *)
Definition unmount (w : World) : Browser := runCleanup (viewer w) (browser w).

(** The parent renders the viewer with prop [id]. *)
Definition changeModelId (id : option string) (w : World) : World :=
  if bool_decide (modelId (viewer w) = id) then w
  else
    let v := viewer w in
    modelIdEffect
      {| viewer := {| modelId := id; slice := slice v; settings := settings v;
                      cleanup := cleanup v |};
         child := child w; inflight := inflight w; next_inv := next_inv w;
         browser := runCleanup v (browser w) |}.

(** How a promise awaited by [fetchModel] settles. *)
Inductive FetchResult :=
| Responded (ok : bool) (status : nat)
| Rejected (reason : string).

(** [catch (err) { setError(`Error: ${err}`) } finally { setLoading(false) }];
    the call [k] is over. *)
Definition failed (k : nat) (err : string) (w : World) : World :=
  {| viewer := withSlice (setLoading false
                            (setError (Some ("Error: " ++ err)%string) (slice (viewer w))))
                         (viewer w);
     child := child w; inflight := delete k (inflight w);
     next_inv := next_inv w; browser := browser w |}.

Definition suspend (k : nat) (i : Invocation) (w : World) : World :=
  {| viewer := viewer w; child := child w;
     inflight := <[k := i]> (inflight w);
     next_inv := next_inv w; browser := browser w |}.

(** [throw new Error(msg)] caught and interpolated into a template string. *)
Definition thrown (msg : string) : string := ("Error: " ++ msg)%string.

Definition detailsResponse (k : nat) (r : FetchResult) (w : World) : World :=
  match inflight w !! k with
  | Some {| inv_modelId := id; inv_await := await_details |} =>
      match r with
      | Rejected reason => failed k reason w
      | Responded false status =>
          failed k (thrown ("Failed to fetch model details: " ++ pretty status)) w
      | Responded true _ =>
          suspend k {| inv_modelId := id; inv_await := await_details_json |} w
      end
  | _ => w
  end.

Definition detailsJson (k : nat) (r : string + ModelInfo) (w : World) : World :=
  match inflight w !! k with
  | Some {| inv_modelId := id; inv_await := await_details_json |} =>
      match r with
      | inl reason => failed k reason w
      | inr modelData =>
          {| viewer := withSlice
                         (setModelInfo (Some {| name := name modelData;
                                                file_format := file_format modelData |})
                                       (slice (viewer w)))
                         (viewer w);
             child := child w;
             inflight := <[k := {| inv_modelId := id; inv_await := await_download |}]>
                           (inflight w);
             next_inv := next_inv w;
             browser := fetch (FetchDownload id) (browser w) |}
      end
  | _ => w
  end.

Definition downloadResponse (k : nat) (r : FetchResult) (w : World) : World :=
  match inflight w !! k with
  | Some {| inv_modelId := id; inv_await := await_download |} =>
      match r with
      | Rejected reason => failed k reason w
      | Responded false status =>
          failed k (thrown ("Failed to download model: " ++ pretty status)) w
      | Responded true _ =>
          suspend k {| inv_modelId := id; inv_await := await_blob |} w
      end
  | _ => w
  end.

Definition downloadBlob (k : nat) (r : string + Blob) (w : World) : World :=
  match inflight w !! k with
  | Some {| inv_modelId := id; inv_await := await_blob |} =>
      match r with
      | inl reason => failed k reason w
      | inr blob =>
          let '(u, b) := createObjectURL blob (browser w) in
          {| viewer := withSlice
                         (setLoading false (setModelUrl (Some u) (slice (viewer w))))
                         (viewer w);
             child := child w; inflight := delete k (inflight w);
             next_inv := next_inv w; browser := b |}
      end
  | _ => w
  end.

Definition onSettings (f : Settings -> Settings) (w : World) : World :=
  {| viewer := withSettings (f (settings (viewer w))) (viewer w);
     child := child w; inflight := inflight w; next_inv := next_inv w;
     browser := browser w |}.

Definition onChild (f : ModelState -> ModelState) (w : World) : World :=
  {| viewer := viewer w; child := whileMounted f <$> child w;
     inflight := inflight w; next_inv := next_inv w; browser := browser w |}.

Inductive Event :=
| ChangeModelId (id : option string)
| DetailsResponse (k : nat) (r : FetchResult)
| DetailsJson (k : nat) (r : string + ModelInfo)
| DownloadResponse (k : nat) (r : FetchResult)
| DownloadBlob (k : nat) (r : string + Blob)
| SetViewMode (m : ViewMode)
| SetObjectColor (c : string)
| SetAutoRotate (b : bool)
| SetBackgroundColor (c : string)
| ToggleTheme
| ClearError
| LoaderSuccess (k : nat) (payload : Payload)
| LoaderError (k : nat).

(** One event: the handler or continuation runs, then React renders and
    brings the [Model] child in line. *)
Definition step (e : Event) (w : World) : World :=
  reconcile
    match e with
    | ChangeModelId id => changeModelId id w
    | DetailsResponse k r => detailsResponse k r w
    | DetailsJson k r => detailsJson k r w
    | DownloadResponse k r => downloadResponse k r w
    | DownloadBlob k r => downloadBlob k r w
    | SetViewMode m => onSettings (setViewMode m) w
    | SetObjectColor c => onSettings (setObjectColor c) w
    | SetAutoRotate b => onSettings (setAutoRotate b) w
    | SetBackgroundColor c => onSettings (setBackgroundColor c) w
    | ToggleTheme => onSettings toggleTheme w
    | ClearError =>
        {| viewer := withSlice (setError None (slice (viewer w))) (viewer w);
           child := child w; inflight := inflight w; next_inv := next_inv w;
           browser := browser w |}
    | LoaderSuccess k payload => onChild (loaderSuccess k payload) w
    | LoaderError k => onChild (loaderError k) w
    end.

Definition run (es : list Event) (w : World) : World :=
  fold_left (fun w e => step e w) es w.

(* ================================================================== *)
(** ** Format strings *)
(* ================================================================== *)

(** [String.prototype.toLowerCase] on ASCII text, as [App.handleFileChange]
    applies it to a file name before the format is stored. *)
Definition lowerAscii (c : ascii) : ascii :=
  let n := nat_of_ascii c in
  if (65 <=? n)%nat && (n <=? 90)%nat then ascii_of_nat (n + 32) else c.

Fixpoint toLowerCase (s : string) : string :=
  match s with
  | EmptyString => EmptyString
  | String c rest => String (lowerAscii c) (toLowerCase rest)
  end.

(** The specification's reading of a supported format: [stl] or [obj], in
    any mix of upper and lower case. *)
Definition specSupported (format : string) : bool :=
  String.eqb (toLowerCase format) "stl" || String.eqb (toLowerCase format) "obj".

(* ================================================================== *)
(** ** Deleting a model ([App.handleModelDelete], [ModelList.handleDelete]) *)
(* ================================================================== *)

Module App.
Section WithIds.

(** [models] is an [any[]]: all the handler asks of a model's [id] is
    [toString()]. *)
Context {Id : Type} (toString : Id -> string).

Record ModelRow := { id : Id; row_name : string; row_file_format : string }.

Record AppState := {
  models : list ModelRow;
  activeModelId : option string
}.

(** [models.filter(model => model.id.toString() !== modelId)] *)
Definition others (modelId : string) (ms : list ModelRow) : list ModelRow :=
  List.filter (fun m => negb (String.eqb (toString (id m)) modelId)) ms.

(** The part of [handleModelDelete] after [await fetch(..., DELETE)].
    [seen] is the state of the render whose handler was called (the closure
    reads [models] and [activeModelId] there); [now] is the state when the
    response arrives. *)
Definition afterDelete (seen : AppState) (modelId : string)
    (r : FetchResult) (now : AppState) : AppState :=
  match r with
  | Responded true _ =>
      {| models := others modelId (models seen);
         activeModelId :=
           if bool_decide (activeModelId seen = Some modelId) then
             let remainingModels := others modelId (models seen) in
             match remainingModels with
             | first :: _ => Some (toString (id first))
             | [] => None
             end
           else activeModelId now |}
  | _ => now            (* thrown, caught and logged *)
  end.

(** The part of [fetchModels] after its [await]s: [data] is the list the
    server sent, [None] stands for a failed request (thrown, caught and
    logged).  [seen] and [now] are as for [afterDelete]. *)
Definition afterFetchModels (seen : AppState) (data : option (list ModelRow))
    (now : AppState) : AppState :=
  match data with
  | Some data =>
      {| models := data;
         activeModelId :=
           match data with
           | first :: _ =>
               if truthy (activeModelId seen) then activeModelId now
               else Some (toString (id first))
           | [] => activeModelId now
           end |}
  | None => now
  end.

(** [handleModelSelect] *)
Definition handleModelSelect (modelId : string) (s : AppState) : AppState :=
  {| models := models s; activeModelId := Some modelId |}.

(** The ids on the list, as the handlers compare them. *)
Definition listedIds (s : AppState) : list string :=
  map (fun m => toString (id m)) (models s).

(** The selection, if there is one, is the id of a listed model. *)
Definition selectionListed (s : AppState) : Prop :=
  forall x, activeModelId s = Some x -> In x (listedIds s).

End WithIds.

(** [String.prototype.endsWith]: some tail of [s] is [suffix]. *)
Fixpoint endsWith (s suffix : string) : bool :=
  if String.eqb s suffix then true
  else match s with
       | EmptyString => false
       | String _ rest => endsWith rest suffix
       end.

(** [String.prototype.split] with a one-character separator. *)
Fixpoint split (sep : ascii) (s : string) : list string :=
  match s with
  | EmptyString => [EmptyString]
  | String c rest =>
      if Ascii.eqb c sep then EmptyString :: split sep rest
      else match split sep rest with
           | piece :: pieces => String c piece :: pieces
           | [] => [String c EmptyString]
           end
  end.

(** [file.name.split('.').pop()?.toLowerCase() || 'stl'] *)
Definition detectFormat (fileName : string) : string :=
  match last (split "." fileName) with
  | Some extension =>
      if String.eqb (toLowerCase extension) "" then "stl" else toLowerCase extension
  | None => "stl"
  end.

(** The check at the top of [handleFileChange], passed. *)
Definition supportedFileName (fileName : string) : bool :=
  endsWith (toLowerCase fileName) ".stl" || endsWith (toLowerCase fileName) ".obj".

Record UploadState := {
  isUploading : bool;
  uploadError : option string
}.

(** The fields appended to the form that is posted. *)
Record FormData := {
  form_name : string;
  form_file_format : string
}.

(** [handleFileChange] up to its [await fetch]: [files] are the names of the
    files of the event; the result holds the form that is posted, if one
    is. *)
Definition handleFileChange (files : list string) (u : UploadState)
  : UploadState * option FormData :=
  match files with
  | [] => (u, None)
  | fileName :: _ =>
      if negb (supportedFileName fileName) then
        ({| isUploading := isUploading u;
            uploadError := Some "Only STL and OBJ files are supported" |}, None)
      else
        ({| isUploading := true; uploadError := None |},
         Some {| form_name := fileName; form_file_format := detectFormat fileName |})
  end.

End App.

Module ModelList.

(** [interface Model] of the list component. *)
Record Model := {
  id : string;
  name : string;
  file_format : string;
  uploaded_at : string
}.

(** The component with the state of its parent that [onModelSelect]
    writes: [activeModel] is that state, passed back as a prop.
    [refetches] counts the calls of [fetchModels]. *)
Record ListState := {
  models : list Model;
  activeModel : option string;
  refetches : nat
}.

(** [handleDelete(id)] after [await fetch(..., DELETE)].  [seen] is the state
    of the render whose handler was called (the closure reads the prop
    [activeModel] there); [now] is the state when the response arrives. *)
Definition afterDelete (seen : ListState) (modelId : string) (r : FetchResult)
    (now : ListState) : ListState :=
  match r with
  | Responded true _ =>
      {| models := models now;
         activeModel :=
           if bool_decide (activeModel seen = Some modelId)
           then None                      (* onModelSelect(null) *)
           else activeModel now;
         refetches := S (refetches now) |}
  | _ => now
  end.


End ModelList.

(* ================================================================== *)
(** ** Scenarios *)
(* ================================================================== *)

(** The four events by which call [k] of [fetchModel] runs to completion
    with metadata [info] and file contents [blob]. *)
Definition completes (k : nat) (info : ModelInfo) (blob : Blob) : list Event :=
  [DetailsResponse k (Responded true 200); DetailsJson k (inr info);
   DownloadResponse k (Responded true 200); DownloadBlob k (inr blob)].

Definition bracket : ModelInfo := {| name := "bracket.stl"; file_format := "stl" |}.
Definition gear : ModelInfo := {| name := "gear.obj"; file_format := "obj" |}.

(** Model "a" is shown first; "b" is requested while "a" is still loading. *)
Definition twoRequests : World := step (ChangeModelId (Some "b")) (mount (Some "a")).

(** ... the later request (call 1, model "b") completes first ... *)
Definition laterArrivedFirst : World := run (completes 1 gear "obj bytes") twoRequests.

(** ... and the earlier one (call 0, model "a") completes after it. *)
Definition earlierArrivedLast : World := run (completes 0 bracket "stl bytes") laterArrivedFirst.

(** Model "a" is requested and loads. *)
Definition shownA : World := run (completes 0 bracket "stl bytes") (mount (Some "a")).

(** The page and the consistency of a world: the [Model] that is mounted is
    the one the viewer renders. *)
Definition consistent (w : World) : Prop :=
  props <$> child w = renderModel (viewer w).

(** What the load pipeline of the mounted [Model] has done and holds. *)
Definition pipeline (w : World)
  : option (gmap nat Load * nat * option nat * list (Loader * ObjectURL)) :=
  (fun c => (loads c, next_load c, effect_load c, load_calls c)) <$> child w.

(** The placement and the drawn bounding box of what the mounted [Model]
    shows. *)
Definition shownTransforms (w : World) : option (list (Placement * Box3)) :=
  (fun c => map (fun o => (placementOf o, worldBox o)) (modelRef c)) <$> child w.

(** The requests to the model store and the load state they write. *)
Definition storeTraffic (w : World) : gmap nat Invocation * nat * Browser * LoadSlice :=
  (inflight w, next_inv w, browser w, slice (viewer w)).

(** The props of [Model] after a change of the settings alone. *)
Definition withSettingsProps (s : Settings) (p : ModelProps) : ModelProps :=
  {| url := url p; fileFormat := fileFormat p;
     p_viewMode := viewMode s; p_objectColor := objectColor s |}.

(** One triangle, delivered without normals. *)
Definition triangle : BufferGeometry :=
  {| attr_position := [V3 0 0 0; V3 1 0 0; V3 0 4 0]%R; attr_normal := None |}.

(** Model "a" is on screen: requested, fetched, parsed and placed. *)
Definition displayedA : World := step (LoaderSuccess 0 (StlGeometry triangle)) shownA.

(* ================================================================== *)
(** ** The life of one mounted [Model] *)
(* ================================================================== *)

(** What can happen to a mounted [Model]: a render with new props, or one of
    the callbacks of a load.  Once its render has thrown, nothing happens to
    it any more. *)
Inductive ModelEvent :=
| Rendered (p : ModelProps)
| Succeeded (k : nat) (payload : Payload)
| Failed (k : nat).

Definition modelStep (s : ModelState) (e : ModelEvent) : ModelState :=
  if modelThrows s then s
  else match e with
       | Rendered p => updateModel p s
       | Succeeded k payload => loaderSuccess k payload s
       | Failed k => loaderError k s
       end.

Definition modelRun (es : list ModelEvent) (s : ModelState) : ModelState :=
  fold_left modelStep es s.

(** The materials of the meshes of a shown object, as [traverse] meets
    them. *)
Definition meshMaterials (o : SceneObject) : list Material :=
  match o with
  | AMesh m => [material m]
  | AGroup g => map child_material (List.filter child_is_mesh (children g))
  end.

(** The loads of a [Model] are in order: a pending load that is still active
    is the one of the latest effect run, that load was started for the
    current [url], [fileFormat] and [viewMode], and load numbers are not
    reused. *)
Definition loadsInOrder (s : ModelState) : Prop :=
  (forall k l, loads s !! k = Some l -> isActive l = true -> effect_load s = Some k)
  /\ (forall k l, effect_load s = Some k -> loads s !! k = Some l ->
        isActive l = true
        /\ load_url l = url (props s)
        /\ load_viewMode l = p_viewMode (props s)
        /\ loaderFor (fileFormat (props s)) = Some (loader l))
  /\ (forall k, is_Some (loads s !! k) -> k < next_load s).

(* ================================================================== *)
(** * Properties *)
(* ================================================================== *)

(** ** Bounding boxes under a uniform scale and a translation *)

Section BoundingBoxes.
Local Open Scope R_scope.

Lemma Rmin_affine (p s a b : R) :
  0 <= s -> Rmin (p + s * a) (p + s * b) = p + s * Rmin a b.
Proof.
  intros Hs. unfold Rmin.
  destruct (Rle_dec (p + s * a) (p + s * b)), (Rle_dec a b); try reflexivity; nra.
Qed.

Lemma Rmax_affine (p s a b : R) :
  0 <= s -> Rmax (p + s * a) (p + s * b) = p + s * Rmax a b.
Proof.
  intros Hs. unfold Rmax.
  destruct (Rle_dec (p + s * a) (p + s * b)), (Rle_dec a b); try reflexivity; nra.
Qed.

Lemma expandByPoint_moved (t : Placement) (s : R) (b : Box3) (v : Vector3) :
  uniform t s -> 0 <= s ->
  expandByPoint (moveBox t b) (localToWorld t v) = moveBox t (expandByPoint b v).
Proof.
  intros Hu Hs. destruct b as [|mn mx]; [reflexivity|].
  unfold uniform in Hu.
  cbn [moveBox expandByPoint].
  unfold localToWorld, vmin, vmax, vadd, vmul. rewrite Hu. cbn [vx vy vz].
  rewrite !Rmin_affine, !Rmax_affine by assumption. reflexivity.
Qed.

Lemma expandByPoints_moved (t : Placement) (s : R) (vs : list Vector3) :
  uniform t s -> 0 <= s ->
  forall b,
    expandByPoints (moveBox t b) (map (localToWorld t) vs)
    = moveBox t (expandByPoints b vs).
Proof.
  intros Hu Hs. unfold expandByPoints.
  induction vs as [|v vs IH]; intros b; cbn [map fold_left]; [reflexivity|].
  rewrite (expandByPoint_moved t s) by assumption. apply IH.
Qed.

Lemma setFromPoints_moved (t : Placement) (s : R) (vs : list Vector3) :
  uniform t s -> 0 <= s ->
  setFromPoints (map (localToWorld t) vs) = moveBox t (setFromPoints vs).
Proof.
  intros Hu Hs. unfold setFromPoints.
  apply (expandByPoints_moved t s vs Hu Hs EmptyBox).
Qed.

Lemma max3_size_moved (t : Placement) (s : R) (mn mx : Vector3) :
  uniform t s -> 0 <= s ->
  max3 (getSize (moveBox t (Box mn mx))) = s * max3 (vsub mx mn).
Proof.
  intros Hu Hs. unfold uniform in Hu.
  cbn [moveBox getSize]. unfold max3, vsub, localToWorld, vadd, vmul.
  rewrite Hu. cbn [vx vy vz].
  rewrite <- !RmaxRmult by assumption.
  f_equal; [f_equal|]; ring.
Qed.

Lemma expandByPoint_ordered (b : Box3) (v : Vector3) :
  cornersOrdered b -> cornersOrdered (expandByPoint b v).
Proof.
  destruct b as [|mn mx]; cbn.
  - intros _. repeat split; apply Rle_refl.
  - intros (Hx & Hy & Hz).
    repeat split;
      (eapply Rle_trans; [apply Rmin_l|]; eapply Rle_trans; [|apply Rmax_l]; assumption).
Qed.

Lemma expandByPoints_ordered (vs : list Vector3) :
  forall b, cornersOrdered b -> cornersOrdered (expandByPoints b vs).
Proof.
  unfold expandByPoints.
  induction vs as [|v vs IH]; intros b Hb; cbn [fold_left]; [assumption|].
  apply IH, expandByPoint_ordered, Hb.
Qed.

Lemma expandByPoints_nonempty (vs : list Vector3) :
  forall mn mx, exists mn' mx', expandByPoints (Box mn mx) vs = Box mn' mx'.
Proof.
  unfold expandByPoints.
  induction vs as [|v vs IH]; intros mn mx; cbn [fold_left expandByPoint]; eauto.
Qed.

Lemma setFromPoints_box (vs : list Vector3) :
  vs <> [] ->
  exists mn mx, setFromPoints vs = Box mn mx /\ 0 <= max3 (vsub mx mn).
Proof.
  intros Hne. destruct vs as [|v vs]; [congruence|].
  unfold setFromPoints.
  destruct (expandByPoints_nonempty vs v v) as (mn & mx & E).
  exists mn, mx. split.
  - exact E.
  - assert (H : cornersOrdered (Box mn mx)).
    { rewrite <- E. apply expandByPoints_ordered. cbn.
      repeat split; apply Rle_refl. }
    destruct H as (Hx & _).
    unfold max3, vsub. cbn [vx vy vz].
    eapply Rle_trans; [|apply Rmax_l]. eapply Rle_trans; [|apply Rmax_l]. lra.
Qed.

(** [Box3.setFromObject] on a fresh group is the box of all its vertices. *)
Lemma setFromObject_vertices (g : Group) :
  setFromObject g = setFromPoints (groupVertices g).
Proof.
  unfold setFromObject, setFromPoints, groupVertices, expandByPoints.
  generalize EmptyBox.
  induction (children g) as [|c cs IH]; intros b; cbn [map concat fold_left].
  - reflexivity.
  - rewrite fold_left_app. apply IH.
Qed.

Lemma centerAndScale_fits (box : Box3) (o : Placement) :
  0 < max3 (getSize box) ->
  centerAndScale box o
  = ({| position := V3 (- vx (getCenter box)) (- vy (getCenter box)) (- vz (getCenter box));
        scale := V3 (2 / max3 (getSize box)) (2 / max3 (getSize box))
                    (2 / max3 (getSize box)) |},
     [max3 (getSize box)]).
Proof.
  intros H. unfold centerAndScale.
  destruct (Rlt_dec 0 (max3 (getSize box))); [reflexivity|contradiction].
Qed.

Lemma centerAndScale_flat (box : Box3) (o : Placement) :
  ~ 0 < max3 (getSize box) ->
  centerAndScale box o
  = ({| position := V3 (- vx (getCenter box)) (- vy (getCenter box)) (- vz (getCenter box));
        scale := scale o |},
     []).
Proof.
  intros H. unfold centerAndScale.
  destruct (Rlt_dec 0 (max3 (getSize box))); [contradiction|reflexivity].
Qed.

(** The shared block meets the specification of [normalize]. *)
Lemma centerAndScale_spec (vs : list Vector3) :
  vs <> [] ->
  let r := centerAndScale (setFromPoints vs) defaultPlacement in
  NormalizeSpec vs (fst r) (snd r) (setFromPoints (map (localToWorld (fst r)) vs)).
Proof.
  intros Hne r.
  destruct (setFromPoints_box vs Hne) as (mn & mx & E & Hge).
  exists mn, mx. split; [exact E|]. cbn zeta.
  assert (Hsize : max3 (getSize (setFromPoints vs)) = max3 (vsub mx mn))
    by (rewrite E; reflexivity).
  assert (Hcenter : getCenter (setFromPoints vs)
                    = multiplyScalar (vadd mn mx) 0.5) by (rewrite E; reflexivity).
  destruct (Rlt_dec 0 (max3 (vsub mx mn))) as [Hpos|Hflat].
  - subst r. rewrite centerAndScale_fits by (rewrite Hsize; exact Hpos).
    rewrite Hsize, Hcenter. cbn [fst snd position scale].
    split; [|split; [exact Hge|split; [|split]]].
    + unfold multiplyScalar, vadd; cbn [vx vy vz]. f_equal; lra.
    + intros _. split; [reflexivity|].
      set (t := {| position := _; scale := _ |}).
      rewrite (setFromPoints_moved t (2 / max3 (vsub mx mn))), E.
      * rewrite (max3_size_moved t (2 / max3 (vsub mx mn))).
        -- field. lra.
        -- reflexivity.
        -- apply Rlt_le, Rdiv_lt_0_compat; lra.
      * reflexivity.
      * apply Rlt_le, Rdiv_lt_0_compat; lra.
    + intros H0. lra.
    + constructor; [lra|constructor].
  - subst r. rewrite centerAndScale_flat by (rewrite Hsize; exact Hflat).
    rewrite Hcenter. cbn [fst snd position scale].
    split; [|split; [exact Hge|split; [|split]]].
    + unfold multiplyScalar, vadd; cbn [vx vy vz]. f_equal; lra.
    + intros Hpos. contradiction.
    + intros _. split; reflexivity.
    + constructor.
Qed.

End BoundingBoxes.

(** ** Claims about materials, normalisation and camera framing *)

Section Geometry.
Local Open Scope R_scope.

(** C5. [createMaterial] is a function of the view mode and the colour
    alone, and its result has, for every colour: in normal mode no
    wireframe, opacity 1 and front faces only; in wireframe mode wireframe,
    opacity 1 and front faces only; in x-ray mode no wireframe, opacity 0.5
    and both sides. *)
Theorem createMaterial_table (objectColor : string) :
  materialSpec (createMaterial objectColor mode_normal)
  = {| wireframe := false; opacity := 1; doubleSided := false; color := objectColor |}
  /\ materialSpec (createMaterial objectColor mode_wireframe)
     = {| wireframe := true; opacity := 1; doubleSided := false; color := objectColor |}
  /\ materialSpec (createMaterial objectColor mode_xray)
     = {| wireframe := false; opacity := 0.5; doubleSided := true; color := objectColor |}.
Proof. repeat split. Qed.

Lemma groupVertices_same_geometry (p q : Placement) (f : Child -> Child) (cs : list Child) :
  (forall c, child_geometry (f c) = child_geometry c) ->
  groupVertices {| group_placement := p; children := map f cs |}
  = groupVertices {| group_placement := q; children := cs |}.
Proof.
  intros Hf. unfold groupVertices. cbn [children].
  rewrite map_map. f_equal. apply map_ext. intros c. rewrite Hf. reflexivity.
Qed.

(** C2. For every loaded geometry with at least one vertex (an STL
    geometry, or the children of an OBJ group), the success callback places
    the object at minus the centre of its bounding box, where the centre is
    (min+max)/2; when the largest dimension [maxDim] of the box is positive
    it scales by 2/maxDim on all three axes and the bounding box of the
    placed vertices has largest dimension 2; when [maxDim] is 0 the scale
    stays 1 and nothing is divided; and no divisor is ever 0. *)
Theorem normalize_centers_and_fits (objectColor : string) (viewMode : ViewMode)
    (payload : Payload) :
  payloadVertices payload <> [] ->
  NormalizeSpec (payloadVertices payload)
                (placementOf (fst (onLoaded objectColor viewMode payload)))
                (snd (onLoaded objectColor viewMode payload))
                (worldBox (fst (onLoaded objectColor viewMode payload))).
Proof.
  intros Hne.
  pose proof (centerAndScale_spec (payloadVertices payload) Hne) as Hspec.
  cbn zeta in Hspec.
  destruct payload as [g|cs]; cbn [payloadVertices] in *.
  - unfold onLoaded, onStlLoaded, worldBoxOfMesh.
    assert (Hpos : attr_position (match attr_normal g with
                                  | Some _ => g
                                  | None => computeVertexNormals g
                                  end) = attr_position g)
      by (destruct (attr_normal g); reflexivity).
    rewrite Hpos.
    destruct (centerAndScale (setFromPoints (attr_position g)) defaultPlacement)
      as [p ds].
    cbn [fst snd placementOf worldBox worldBoxOfMesh placement geometry] in *.
    unfold worldBoxOfMesh. cbn [geometry placement]. rewrite Hpos. exact Hspec.
  - unfold onLoaded, onObjLoaded.
    rewrite setFromObject_vertices. cbn [group_placement children].
    destruct (centerAndScale _ defaultPlacement) as [p ds].
    cbn [fst snd placementOf worldBox group_placement] in *.
    unfold worldBoxOfGroup. cbn [group_placement].
    rewrite (groupVertices_same_geometry p defaultPlacement).
    + exact Hspec.
    + intros c. destruct (child_is_mesh c); reflexivity.
Qed.

Lemma normalize_centers_and_fits_witness :
  payloadVertices (StlGeometry {| attr_position := [V3 0 0 0; V3 1 0 0; V3 0 4 0];
                                  attr_normal := None |}) <> []
  /\ NormalizeSpec
       [V3 0 0 0; V3 1 0 0; V3 0 4 0]
       (placementOf (fst (onLoaded "#00b8d4" mode_normal
          (StlGeometry {| attr_position := [V3 0 0 0; V3 1 0 0; V3 0 4 0];
                          attr_normal := None |}))))
       (snd (onLoaded "#00b8d4" mode_normal
          (StlGeometry {| attr_position := [V3 0 0 0; V3 1 0 0; V3 0 4 0];
                          attr_normal := None |})))
       (worldBox (fst (onLoaded "#00b8d4" mode_normal
          (StlGeometry {| attr_position := [V3 0 0 0; V3 1 0 0; V3 0 4 0];
                          attr_normal := None |})))).
Proof.
  split.
  - simpl. discriminate.
  - apply (normalize_centers_and_fits "#00b8d4" mode_normal
             (StlGeometry {| attr_position := [V3 0 0 0; V3 1 0 0; V3 0 4 0];
                             attr_normal := None |})).
    simpl. discriminate.
Defined.

Lemma max3_cube (a : R) : max3 (V3 a a a) = a.
Proof.
  unfold max3. cbn [vx vy vz].
  rewrite (Rmax_left a a) by apply Rle_refl. apply Rmax_left, Rle_refl.
Qed.

Lemma normalize_one_one_one :
  normalize (V3 1 1 1) = V3 (1 / sqrt 3) (1 / sqrt 3) (1 / sqrt 3).
Proof.
  unfold normalize, vlength, divideScalar, multiplyScalar. cbn [vx vy vz].
  replace (1 * 1 + 1 * 1 + 1 * 1) with 3 by ring.
  assert (Hs : 0 < sqrt 3) by (apply sqrt_lt_R0; lra).
  destruct (Req_dec_T (sqrt 3) 0) as [E|_]; [lra|].
  f_equal; ring.
Qed.

(** C3. For every bounding box whose largest dimension [maxDim] is
    positive, the framing sets the target to the centre of the box and the
    camera to centre + normalize(1,1,1) * distance, where distance =
    (maxDim/2) / tan(fov/2) * 2.5 with the camera's field of view in
    radians and normalize(1,1,1) the unit diagonal; for a box of size
    (2,2,2) and a field of view of pi/2 the distance is exactly 2.5. *)
Theorem frame_places_camera (box : Box3) (s : SceneView) :
  0 < max3 (getSize box) ->
  controls_target (fst (frame box s)) = Some (getCenter box)
  /\ cam_lookAt (camera (fst (frame box s))) = Some (getCenter box)
  /\ cam_position (camera (fst (frame box s)))
     = vadd (getCenter box)
            (multiplyScalar (normalize (V3 1 1 1))
                            (frameDistance (camera s) (max3 (getSize box))))
  /\ frameDistance (camera s) (max3 (getSize box))
     = (max3 (getSize box) / 2) / tan (fovRadians (camera s) / 2) * 2.5
  /\ normalize (V3 1 1 1) = V3 (1 / sqrt 3) (1 / sqrt 3) (1 / sqrt 3)
  /\ (getSize box = V3 2 2 2 -> fovRadians (camera s) = PI / 2 ->
      frameDistance (camera s) (max3 (getSize box)) = 2.5).
Proof.
  intros Hpos. unfold frame.
  destruct (Rlt_dec 0 (max3 (getSize box))) as [_|Hn]; [|contradiction].
  cbn [fst controls_target camera cam_lookAt cam_position].
  repeat split.
  - apply normalize_one_one_one.
  - intros Hsize Hfov. unfold frameDistance. rewrite Hsize, Hfov.
    rewrite max3_cube.
    replace (PI / 2 / 2) with (PI / 4) by lra.
    rewrite tan_PI4. lra.
Qed.

Lemma frame_places_camera_witness :
  0 < max3 (getSize (Box (V3 0 0 0) (V3 2 2 2)))
  /\ cam_position
       (camera (fst (frame (Box (V3 0 0 0) (V3 2 2 2))
                           {| controls_target := Some vzero;
                              camera := {| cam_position := V3 0 0 5;
                                           cam_lookAt := None;
                                           cam_fov := Some 90 |} |})))
     = vadd (getCenter (Box (V3 0 0 0) (V3 2 2 2)))
            (multiplyScalar (normalize (V3 1 1 1)) 2.5).
Proof.
  assert (Hpos : 0 < max3 (getSize (Box (V3 0 0 0) (V3 2 2 2)))).
  { unfold getSize, vsub. cbn [vx vy vz]. rewrite max3_cube. lra. }
  split; [exact Hpos|].
  destruct (frame_places_camera
              (Box (V3 0 0 0) (V3 2 2 2))
              {| controls_target := Some vzero;
                 camera := {| cam_position := V3 0 0 5; cam_lookAt := None;
                              cam_fov := Some 90 |} |} Hpos)
    as (_ & _ & Hcam & _ & _ & Hdist).
  rewrite Hcam. rewrite Hdist; [reflexivity| |].
  - unfold getSize, vsub. cbn [vx vy vz]. f_equal; lra.
  - unfold fovRadians. cbn [camera cam_fov]. lra.
Defined.

(** C4, as the code has it.  For every bounding box whose largest dimension
    is 0, the framing sets the controls target to the centre of the box and
    leaves the camera as it was (position, look-at point and field of
    view); no division is evaluated. *)
Theorem frame_flat_box_keeps_camera (box : Box3) (s : SceneView) :
  max3 (getSize box) = 0 ->
  frame box s = ({| controls_target := Some (getCenter box); camera := camera s |}, []).
Proof.
  intros H0. unfold frame.
  destruct (Rlt_dec 0 (max3 (getSize box))) as [Hpos|_]; [lra|reflexivity].
Qed.

Lemma frame_flat_box_keeps_camera_witness :
  max3 (getSize (Box (V3 1 2 3) (V3 1 2 3))) = 0
  /\ frame (Box (V3 1 2 3) (V3 1 2 3))
           {| controls_target := Some vzero;
              camera := {| cam_position := V3 0 0 5; cam_lookAt := None;
                           cam_fov := Some 50 |} |}
     = ({| controls_target := Some (getCenter (Box (V3 1 2 3) (V3 1 2 3)));
           camera := {| cam_position := V3 0 0 5; cam_lookAt := None;
                        cam_fov := Some 50 |} |}, []).
Proof.
  assert (H0 : max3 (getSize (Box (V3 1 2 3) (V3 1 2 3))) = 0).
  { unfold getSize, vsub. cbn [vx vy vz].
    replace (1 - 1) with 0 by lra. replace (2 - 2) with 0 by lra.
    replace (3 - 3) with 0 by lra. apply (max3_cube 0). }
  split; [exact H0|].
  apply (frame_flat_box_keeps_camera (Box (V3 1 2 3) (V3 1 2 3))
           {| controls_target := Some vzero;
              camera := {| cam_position := V3 0 0 5; cam_lookAt := None;
                           cam_fov := Some 50 |} |} H0).
Defined.

(** C4, as the specification has it, fails.  With the one-point box at the
    origin and the canvas camera at (0,0,5), the camera stays at (0,0,5),
    which is not the origin plus 5 units along the unit diagonal; and no
    fixed offset from the centre describes the outcome, since the outcome
    moves with the camera's previous position. *)
Lemma frame_flat_box_no_default_pose :
  cam_position
    (camera (fst (frame (Box vzero vzero)
                        {| controls_target := Some vzero;
                           camera := {| cam_position := V3 0 0 5; cam_lookAt := None;
                                        cam_fov := Some 50 |} |})))
  = V3 0 0 5
  /\ V3 0 0 5 <> vadd (getCenter (Box vzero vzero))
                      (multiplyScalar (normalize (V3 1 1 1)) 5)
  /\ ~ (exists offset : Vector3,
          forall (box : Box3) (s : SceneView),
            max3 (getSize box) = 0 ->
            cam_position (camera (fst (frame box s))) = vadd (getCenter box) offset).
Proof.
  assert (H0 : max3 (getSize (Box vzero vzero)) = 0).
  { unfold getSize, vsub, vzero. cbn [vx vy vz].
    replace (0 - 0) with 0 by lra. apply max3_cube. }
  split; [|split].
  - rewrite frame_flat_box_keeps_camera by exact H0. reflexivity.
  - rewrite normalize_one_one_one.
    unfold vadd, multiplyScalar, vzero. cbn [getCenter vadd multiplyScalar vx vy vz].
    intros E. injection E as Ex _ _.
    assert (Hs : 0 < sqrt 3) by (apply sqrt_lt_R0; lra).
    assert (Hq : 0 < 1 / sqrt 3) by (apply Rdiv_lt_0_compat; lra).
    nra.
  - intros [offset Hfix].
    pose proof (Hfix (Box vzero vzero)
                  {| controls_target := None;
                     camera := {| cam_position := V3 0 0 5; cam_lookAt := None;
                                  cam_fov := None |} |} H0) as H5.
    pose proof (Hfix (Box vzero vzero)
                  {| controls_target := None;
                     camera := {| cam_position := V3 0 0 6; cam_lookAt := None;
                                  cam_fov := None |} |} H0) as H6.
    rewrite frame_flat_box_keeps_camera in H5, H6 by exact H0.
    cbn [fst camera cam_position] in H5, H6.
    rewrite <- H6 in H5. injection H5 as E. lra.
Qed.

End Geometry.

(** ** Claims about the load lifecycle and object URLs *)

(** C1 fails on the code: [fetchModel] has no guard against a superseded
    call.  "a" is requested, then "b"; the files of "b" arrive first and are
    shown; when the files of "a" arrive afterwards they replace them, although
    the viewer's [modelId] is still "b". *)
Theorem superseded_fetch_is_installed :
  modelId (viewer laterArrivedFirst) = Some "b"
  /\ modelInfo (slice (viewer laterArrivedFirst)) = Some gear
  /\ (modelUrl (slice (viewer laterArrivedFirst)) ≫= fun u =>
        object_urls (browser laterArrivedFirst) !! u) = Some "obj bytes"
  /\ modelId (viewer earlierArrivedLast) = Some "b"
  /\ modelInfo (slice (viewer earlierArrivedLast)) = Some bracket
  /\ (modelUrl (slice (viewer earlierArrivedLast)) ≫= fun u =>
        object_urls (browser earlierArrivedLast) !! u) = Some "stl bytes"
  /\ (fileFormat <$> (props <$> child earlierArrivedLast)) = Some "stl".
Proof. vm_compute. repeat split. Qed.

(** The guard that the [Model] component does have: the success callback of a
    load whose effect run was cleaned up changes nothing that is shown. *)
Lemma superseded_loader_success_ignored (k : nat) (payload : Payload)
    (s : ModelState) (l : Load) :
  loads s !! k = Some l -> isActive l = false ->
  modelRef (loaderSuccess k payload s) = modelRef s
  /\ model (loaderSuccess k payload s) = model s
  /\ m_error (loaderSuccess k payload s) = m_error s.
Proof.
  intros Hk Hoff. unfold loaderSuccess. rewrite Hk, Hoff.
  destruct (loader l), payload; repeat split.
Qed.

(** C8 fails on the code: the cleanup revokes the [modelUrl] of the render in
    which its effect ran, not the current one.  (1) "a" loads and the
    selection is cleared: the URL of "a" is in no state any more, was not
    revoked, and unmounting does not revoke it either.  (2) "a" loads, "b"
    is selected and loads: two URLs are registered and none was revoked.
    (3) "a" loads, then "b", "c" and "d" are selected in a row: the URL of
    "a" is revoked twice. *)
Theorem object_urls_not_released_once :
  (modelUrl (slice (viewer (step (ChangeModelId None) shownA))) = None
   /\ object_urls (browser (step (ChangeModelId None) shownA)) !! 0 = Some "stl bytes"
   /\ revocations (browser (step (ChangeModelId None) shownA)) = []
   /\ object_urls (unmount (step (ChangeModelId None) shownA)) !! 0 = Some "stl bytes"
   /\ revocations (unmount (step (ChangeModelId None) shownA)) = [])
  /\ (size (object_urls (browser
        (run (ChangeModelId (Some "b") :: completes 1 gear "obj bytes") shownA))) = 2
      /\ revocations (browser
        (run (ChangeModelId (Some "b") :: completes 1 gear "obj bytes") shownA)) = [])
  /\ revocations (browser
       (run [ChangeModelId (Some "b"); ChangeModelId (Some "c"); ChangeModelId (Some "d")]
            shownA)) = [0; 0].
Proof. vm_compute. repeat split. Qed.

(** What the browser does with a second [revokeObjectURL] of one URL: the
    registry is as after the first, and other URLs were never touched. *)
Lemma revokeObjectURL_twice (u v : ObjectURL) (b : Browser) :
  object_urls (revokeObjectURL u (revokeObjectURL u b)) = object_urls (revokeObjectURL u b)
  /\ (u <> v -> object_urls (revokeObjectURL u b) !! v = object_urls b !! v).
Proof.
  split.
  - cbn. apply delete_delete_eq.
  - intros Hne. cbn. apply lookup_delete_ne, Hne.
Qed.

(** ** Claims about formats, normals and deletion *)

(** C6, as the specification has it, fails.  The format "STL" is [stl] up to
    case, yet [loadModel] takes it for unsupported: no loader is called and
    the render that follows throws.  And for the format "step" (as for
    "STL") the file has been requested, received and given an object URL
    before [Model] is mounted and looks at the format. *)
Lemma format_checked_exactly_and_late :
  specSupported "STL" = true
  /\ loaderFor "STL" = None
  /\ (let w := run (completes 0 {| name := "part"; file_format := "STL" |} "solid part")
                   (mount (Some "7")) in
      fetches (browser w) = [FetchDetails "7"; FetchDownload "7"]
      /\ object_urls (browser w) !! 0 = Some "solid part"
      /\ (modelThrows <$> child w) = Some true
      /\ (load_calls <$> child w) = Some [])
  /\ (let w := run (completes 0 {| name := "part"; file_format := "step" |} "ISO-10303-21;")
                   (mount (Some "7")) in
      specSupported "step" = false
      /\ fetches (browser w) = [FetchDetails "7"; FetchDownload "7"]
      /\ object_urls (browser w) !! 0 = Some "ISO-10303-21;"
      /\ (modelThrows <$> child w) = Some true
      /\ (load_calls <$> child w) = Some []).
Proof. vm_compute. repeat split. Qed.

Lemma loaderFor_exact (format : string) :
  loaderFor format
  = if decide (format = "stl") then Some STLLoader
    else if decide (format = "obj") then Some OBJLoader
    else None.
Proof.
  unfold loaderFor.
  destruct (String.eqb_spec format "stl") as [E|N];
    destruct (decide (format = "stl")) as [E'|N']; try congruence.
  destruct (String.eqb_spec format "obj") as [E2|N2];
    destruct (decide (format = "obj")) as [E2'|N2']; congruence.
Qed.

(** C6, as the code has it.  The format is compared exactly with "stl" and
    with "obj".  For any other string the mounted [Model] calls no loader,
    so nothing is parsed, and the render that follows its [setError] throws:
    no error view is shown, and the props of a later render, whatever format
    they name, start no load either.  The format plays no part in fetching:
    once the metadata of call [k] has arrived, whatever format it names, the
    file is requested. *)
Theorem format_matched_exactly (p : ModelProps) (w : World) (k : nat)
    (id : string) (modelData : ModelInfo) :
  fileFormat p <> "stl" -> fileFormat p <> "obj" ->
  inflight w !! k = Some {| inv_modelId := id; inv_await := await_details_json |} ->
  loaderFor "stl" = Some STLLoader
  /\ loaderFor "obj" = Some OBJLoader
  /\ loaderFor (fileFormat p) = None
  /\ modelThrows (mountModel p) = true
  /\ load_calls (mountModel p) = []
  /\ loads (mountModel p) = ∅
  /\ (forall q : ModelProps, load_calls (rerender q (mountModel p)) = [])
  /\ fetches (browser (detailsJson k (inr modelData) w))
     = fetches (browser w) ++ [FetchDownload id]
  /\ inflight (detailsJson k (inr modelData) w) !! k
     = Some {| inv_modelId := id; inv_await := await_download |}.
Proof.
  intros Hstl Hobj Hk.
  assert (Hnone : loaderFor (fileFormat p) = None).
  { rewrite loaderFor_exact. repeat case_decide; congruence. }
  assert (Hthrows : modelThrows (mountModel p) = true).
  { unfold modelThrows, mountModel, loadEffect. rewrite Hnone. reflexivity. }
  assert (Hcalls : load_calls (mountModel p) = []).
  { unfold mountModel, loadEffect. rewrite Hnone. reflexivity. }
  repeat split; try reflexivity; try exact Hnone; try exact Hthrows;
    try exact Hcalls.
  - unfold mountModel, loadEffect. rewrite Hnone. reflexivity.
  - intros q. unfold rerender. rewrite Hthrows. exact Hcalls.
  - unfold detailsJson. rewrite Hk. reflexivity.
  - unfold detailsJson. rewrite Hk. cbn [inflight]. apply lookup_insert_eq.
Qed.

Lemma format_matched_exactly_witness :
  loaderFor "STL" = None
  /\ modelThrows (mountModel {| url := 0; fileFormat := "STL"; p_viewMode := mode_normal;
                                p_objectColor := "#00b8d4" |}) = true
  /\ load_calls (rerender {| url := 0; fileFormat := "stl"; p_viewMode := mode_normal;
                             p_objectColor := "#00b8d4" |}
                   (mountModel {| url := 0; fileFormat := "STL"; p_viewMode := mode_normal;
                                  p_objectColor := "#00b8d4" |})) = []
  /\ fetches (browser (detailsJson 0 (inr {| name := "part"; file_format := "STL" |})
                         (step (DetailsResponse 0 (Responded true 200)) (mount (Some "7")))))
     = [FetchDetails "7"; FetchDownload "7"].
Proof.
  assert (Hstl : "STL"%string <> "stl"%string) by discriminate.
  assert (Hobj : "STL"%string <> "obj"%string) by discriminate.
  assert (Hk : inflight (step (DetailsResponse 0 (Responded true 200)) (mount (Some "7"))) !! 0
               = Some {| inv_modelId := "7"; inv_await := await_details_json |})
    by (vm_compute; reflexivity).
  destruct (format_matched_exactly
              {| url := 0; fileFormat := "STL"; p_viewMode := mode_normal;
                 p_objectColor := "#00b8d4" |}
              (step (DetailsResponse 0 (Responded true 200)) (mount (Some "7")))
              0 "7" {| name := "part"; file_format := "STL" |} Hstl Hobj Hk)
    as (_ & _ & Hnone & Hthrows & _ & _ & Hlater & Hfetch & _).
  split; [exact Hnone|]. split; [exact Hthrows|]. split; [apply Hlater|]. exact Hfetch.
Defined.




(** ** Deleting a model *)






(** ** The setters of the viewer *)

Lemma props_loadEffect (p : ModelProps) (s : ModelState) :
  props (loadEffect p s) = props s.
Proof. unfold loadEffect. destruct (loaderFor (fileFormat p)); reflexivity. Qed.

Lemma modelRef_loadEffect (p : ModelProps) (s : ModelState) :
  modelRef (loadEffect p s) = modelRef s.
Proof. unfold loadEffect. destruct (loaderFor (fileFormat p)); reflexivity. Qed.

Lemma props_updateModel (p : ModelProps) (s : ModelState) :
  props (updateModel p s) = p.
Proof.
  unfold updateModel.
  destruct (loadDepsChanged (props s) p), (bool_decide (p_objectColor (props s) = p_objectColor p));
    cbn [colorEffect props]; rewrite ?props_loadEffect; reflexivity.
Qed.

(** After every step the mounted [Model] is the rendered one. *)
Lemma reconcile_consistent (w : World) : consistent (reconcile w).
Proof.
  unfold consistent, reconcile. cbn [child viewer].
  destruct (renderModel (viewer w)) as [p|]; [|reflexivity].
  destruct (child w) as [s|]; cbn [fmap option_fmap option_map].
  - unfold rerender. destruct (modelThrows s); [reflexivity|].
    rewrite props_updateModel. reflexivity.
  - unfold mountModel. cbn [colorEffect props]. rewrite props_loadEffect. reflexivity.
Qed.

Lemma step_consistent (e : Event) (w : World) : consistent (step e w).
Proof. apply reconcile_consistent. Qed.

Lemma mount_consistent (id : option string) : consistent (mount id).
Proof. apply reconcile_consistent. Qed.

Lemma renderModel_settings (s : Settings) (v : ViewerState) :
  renderModel (withSettings s v) = withSettingsProps s <$> renderModel v.
Proof.
  unfold renderModel, withSettings. cbn [modelId slice settings].
  destruct (negb (truthy (modelId v))); [reflexivity|].
  destruct (loading (slice v)); [reflexivity|].
  destruct (truthy (error (slice v))); [reflexivity|].
  destruct (modelUrl (slice v)), (modelInfo (slice v)); reflexivity.
Qed.

Lemma renderModel_props (v : ViewerState) (p : ModelProps) :
  renderModel v = Some p -> withSettingsProps (settings v) p = p.
Proof.
  unfold renderModel.
  destruct (negb (truthy (modelId v))); [discriminate|].
  destruct (loading (slice v)); [discriminate|].
  destruct (truthy (error (slice v))); [discriminate|].
  destruct (modelUrl (slice v)), (modelInfo (slice v)); try discriminate.
  intros E. injection E as <-. reflexivity.
Qed.

(** A change of the settings reaches the mounted [Model] as new props. *)
Lemma settings_reach_child (f : Settings -> Settings) (w : World) :
  consistent w ->
  child (reconcile (onSettings f w))
  = (fun s => rerender (withSettingsProps (f (settings (viewer w))) (props s)) s)
      <$> child w.
Proof.
  unfold consistent, reconcile, onSettings. cbn [child viewer]. intros Hc.
  rewrite renderModel_settings, <- Hc.
  destruct (child w) as [s|]; reflexivity.
Qed.

Lemma recolor_keeps_transform (c : string) (o : SceneObject) :
  placementOf (recolor c o) = placementOf o /\ worldBox (recolor c o) = worldBox o.
Proof.
  destruct o as [m|g]; split; try reflexivity.
  cbn [recolor worldBox]. unfold worldBoxOfGroup. cbn [group_placement].
  rewrite (groupVertices_same_geometry (group_placement g) (group_placement g)).
  - destruct g; reflexivity.
  - intros ch. destruct (child_is_mesh ch); reflexivity.
Qed.

Lemma recolor_keeps_transforms (c : string) (os : list SceneObject) :
  map (fun o => (placementOf o, worldBox o)) (map (recolor c) os)
  = map (fun o => (placementOf o, worldBox o)) os.
Proof.
  rewrite map_map. apply map_ext. intros o.
  destruct (recolor_keeps_transform c o) as [-> ->]. reflexivity.
Qed.

Lemma loadDepsChanged_same (p q : ModelProps) :
  url p = url q -> fileFormat p = fileFormat q -> p_viewMode p = p_viewMode q ->
  loadDepsChanged p q = false.
Proof.
  intros Hu Hf Hm. unfold loadDepsChanged.
  rewrite !bool_decide_eq_true_2 by assumption. reflexivity.
Qed.

Lemma props_loaderSuccess (k : nat) (payload : Payload) (s : ModelState) :
  props (loaderSuccess k payload s) = props s
  /\ load_calls (loaderSuccess k payload s) = load_calls s.
Proof.
  unfold loaderSuccess.
  destruct (loads s !! k) as [l|]; [|split; reflexivity].
  destruct (loader l), payload, (isActive l); split; reflexivity.
Qed.

Lemma updateModel_same_props (s : ModelState) : updateModel (props s) s = s.
Proof.
  unfold updateModel.
  rewrite loadDepsChanged_same by reflexivity.
  rewrite bool_decide_eq_true_2 by reflexivity.
  destruct s; reflexivity.
Qed.

Lemma loaderSuccess_frame (k : nat) (payload : Payload) (s : ModelState) :
  m_error (loaderSuccess k payload s) = m_error s
  /\ next_load (loaderSuccess k payload s) = next_load s
  /\ effect_load (loaderSuccess k payload s) = effect_load s.
Proof.
  unfold loaderSuccess.
  destruct (loads s !! k) as [l|]; [|repeat split].
  destruct (loader l), payload, (isActive l); repeat split.
Qed.

Lemma withProps_same (s : ModelState) : withProps (props s) s = s.
Proof. destruct s; reflexivity. Qed.

(** A loader callback reaches the mounted [Model] and nothing else. *)
Lemma loader_success_reaches_child (k : nat) (payload : Payload) (w : World) :
  consistent w ->
  child (step (LoaderSuccess k payload) w)
  = whileMounted (loaderSuccess k payload) <$> child w
  /\ viewer (step (LoaderSuccess k payload) w) = viewer w.
Proof.
  unfold consistent, step, reconcile, onChild. cbn [child viewer]. intros Hc.
  split; [|reflexivity].
  rewrite <- Hc. destruct (child w) as [s|]; [|reflexivity].
  cbn [fmap option_fmap option_map]. apply (f_equal Some).
  unfold whileMounted, rerender. destruct (modelThrows s) eqn:Hthrown.
  - rewrite Hthrown. apply withProps_same.
  - unfold modelThrows in *. rewrite (proj1 (loaderSuccess_frame k payload s)), Hthrown.
    rewrite <- (proj1 (props_loaderSuccess k payload s)).
    apply updateModel_same_props.
Qed.

(** A new view mode makes the mounted [Model] clean up its load effect and
    run it again. *)
Lemma view_mode_reloads (w : World) (m : ViewMode) (s : ModelState) (l : Loader) :
  consistent w ->
  child w = Some s ->
  modelThrows s = false ->
  viewMode (settings (viewer w)) <> m ->
  loaderFor (fileFormat (props s)) = Some l ->
  exists s',
    child (step (SetViewMode m) w) = Some s'
    /\ load_calls s' = load_calls s ++ [(l, url (props s))]
    /\ effect_load s' = Some (next_load s)
    /\ loads s' !! next_load s
       = Some {| loader := l; load_url := url (props s); load_viewMode := m;
                 load_objectColor := objectColor (settings (viewer w));
                 isActive := true |}
    /\ (forall k, effect_load s = Some k -> k <> next_load s ->
                  loads s' !! k = deactivate <$> loads s !! k).
Proof.
  intros Hc Hs Hlive Hnew Hl.
  assert (Hprops : withSettingsProps (settings (viewer w)) (props s) = props s).
  { apply renderModel_props. rewrite <- Hc, Hs. reflexivity. }
  assert (Hmode : p_viewMode (props s) = viewMode (settings (viewer w)))
    by (rewrite <- Hprops; reflexivity).
  assert (Hcolor : p_objectColor (props s) = objectColor (settings (viewer w)))
    by (rewrite <- Hprops; reflexivity).
  eexists. split.
  - unfold step. rewrite settings_reach_child by exact Hc. rewrite Hs.
    cbn [fmap option_fmap option_map]. apply (f_equal Some).
    unfold rerender. rewrite Hlive.
    unfold updateModel, withSettingsProps, setViewMode.
    cbn [p_objectColor viewMode objectColor].
    rewrite Hcolor. rewrite (bool_decide_eq_true_2 _ eq_refl).
    unfold loadDepsChanged. cbn [url fileFormat p_viewMode].
    rewrite (bool_decide_eq_false_2 (p_viewMode (props s) = m))
      by (rewrite Hmode; exact Hnew).
    rewrite !andb_false_r. cbn [negb].
    unfold loadEffect. cbn [fileFormat]. rewrite Hl. reflexivity.
  - cbn [load_calls effect_load loads loadCleanup withProps next_load url p_viewMode
         p_objectColor].
    split; [reflexivity|]. split; [reflexivity|]. split; [apply lookup_insert_eq|].
    intros k Hk Hne. rewrite lookup_insert_ne by congruence.
    rewrite Hk. apply lookup_alter_eq.
Qed.

(** C7, as the code has it.  In a world where the mounted [Model] is the
    rendered one: none of [setViewMode], [setObjectColor], [setAutoRotate]
    sends a request to the model store, changes the calls of [fetchModel] in
    flight or the object URLs, or writes [loading], [error], [modelUrl] or
    [modelInfo]; each leaves the placement and the bounding box of what is
    shown as they are.  [setAutoRotate] changes nothing in [Model] at all and
    [setObjectColor] nothing in its load pipeline.  [setViewMode], when the
    mode is a new one, the format has a loader and the [Model] has not
    thrown, re-runs the load effect, which depends on [viewMode]: the load of
    the previous effect run is deactivated, and the loader is called again
    on the same URL, as a new, active load for the new mode. *)
Theorem setters_and_reload (w : World) (m : ViewMode) (c : string) (b : bool) :
  consistent w ->
  storeTraffic (step (SetViewMode m) w) = storeTraffic w
  /\ storeTraffic (step (SetObjectColor c) w) = storeTraffic w
  /\ storeTraffic (step (SetAutoRotate b) w) = storeTraffic w
  /\ child (step (SetAutoRotate b) w) = child w
  /\ pipeline (step (SetObjectColor c) w) = pipeline w
  /\ shownTransforms (step (SetObjectColor c) w) = shownTransforms w
  /\ shownTransforms (step (SetViewMode m) w) = shownTransforms w
  /\ (forall (s : ModelState) (l : Loader),
         child w = Some s ->
         modelThrows s = false ->
         viewMode (settings (viewer w)) <> m ->
         loaderFor (fileFormat (props s)) = Some l ->
         exists s',
           child (step (SetViewMode m) w) = Some s'
           /\ load_calls s' = load_calls s ++ [(l, url (props s))]
           /\ effect_load s' = Some (next_load s)
           /\ loads s' !! next_load s
              = Some {| loader := l; load_url := url (props s); load_viewMode := m;
                        load_objectColor := objectColor (settings (viewer w));
                        isActive := true |}
           /\ (forall k, effect_load s = Some k -> k <> next_load s ->
                         loads s' !! k = deactivate <$> loads s !! k)).
Proof.
  intros Hc.
  assert (Hprops : forall s, child w = Some s ->
                             withSettingsProps (settings (viewer w)) (props s) = props s).
  { intros s Hs. apply renderModel_props. rewrite <- Hc, Hs. reflexivity. }
  split; [reflexivity|]. split; [reflexivity|]. split; [reflexivity|].
  assert (Hreload : forall (s : ModelState) (l : Loader),
             child w = Some s -> modelThrows s = false ->
             viewMode (settings (viewer w)) <> m ->
             loaderFor (fileFormat (props s)) = Some l ->
             exists s',
               child (step (SetViewMode m) w) = Some s'
               /\ load_calls s' = load_calls s ++ [(l, url (props s))]
               /\ effect_load s' = Some (next_load s)
               /\ loads s' !! next_load s
                  = Some {| loader := l; load_url := url (props s); load_viewMode := m;
                            load_objectColor := objectColor (settings (viewer w));
                            isActive := true |}
               /\ (forall k, effect_load s = Some k -> k <> next_load s ->
                             loads s' !! k = deactivate <$> loads s !! k)).
  { intros s l Hs Hlive Hnew Hl. exact (view_mode_reloads w m s l Hc Hs Hlive Hnew Hl). }
  enough (Hrest : child (step (SetAutoRotate b) w) = child w
                  /\ pipeline (step (SetObjectColor c) w) = pipeline w
                  /\ shownTransforms (step (SetObjectColor c) w) = shownTransforms w
                  /\ shownTransforms (step (SetViewMode m) w) = shownTransforms w).
  { destruct Hrest as (H1 & H2 & H3 & H4).
    split; [exact H1|split; [exact H2|split; [exact H3|split; [exact H4|exact Hreload]]]]. }
  clear Hreload.
  unfold pipeline, shownTransforms, step.
  rewrite !settings_reach_child by exact Hc.
  destruct (child w) as [s|] eqn:Hs; cbn [fmap option_fmap option_map].
  2:{ repeat split. }
  specialize (Hprops s eq_refl).
  assert (Hmode : p_viewMode (props s) = viewMode (settings (viewer w)))
    by (rewrite <- Hprops; reflexivity).
  assert (Hcolor : p_objectColor (props s) = objectColor (settings (viewer w)))
    by (rewrite <- Hprops; reflexivity).
  unfold rerender.
  split; [|split; [|split]].
  - (* setAutoRotate *)
    f_equal.
    replace (withSettingsProps (setAutoRotate b (settings (viewer w))) (props s))
      with (props s) by (symmetry; exact Hprops).
    destruct (modelThrows s); [apply withProps_same|apply updateModel_same_props].
  - (* setObjectColor: the pipeline *)
    f_equal. destruct (modelThrows s); [reflexivity|]. unfold updateModel.
    rewrite loadDepsChanged_same by (try reflexivity; exact Hmode).
    match goal with |- context [if ?t then _ else _] => destruct t end; reflexivity.
  - (* setObjectColor: what is shown *)
    f_equal. destruct (modelThrows s); [reflexivity|]. unfold updateModel.
    rewrite loadDepsChanged_same by (try reflexivity; exact Hmode).
    match goal with |- context [if ?t then _ else _] => destruct t end; [reflexivity|].
    cbn [colorEffect withProps modelRef].
    apply recolor_keeps_transforms.
  - (* setViewMode: what is shown *)
    f_equal. destruct (modelThrows s); [reflexivity|].
    unfold updateModel, withSettingsProps, setViewMode.
    cbn [p_objectColor viewMode objectColor].
    rewrite Hcolor. rewrite (bool_decide_eq_true_2 _ eq_refl).
    match goal with |- context [if ?t then _ else _] => destruct t end;
      rewrite ?modelRef_loadEffect; reflexivity.
Qed.

(** What [Model] holds while model "a" is loading in [STLLoader] and once it
    is on screen. *)
Lemma shownA_child :
  consistent shownA
  /\ child shownA
     = Some (mountModel {| url := 0; fileFormat := "stl"; p_viewMode := mode_normal;
                           p_objectColor := "#00b8d4" |})
  /\ viewMode (settings (viewer shownA)) = mode_normal
  /\ objectColor (settings (viewer shownA)) = "#00b8d4"
  /\ modelThrows (mountModel {| url := 0; fileFormat := "stl"; p_viewMode := mode_normal;
                                p_objectColor := "#00b8d4" |}) = false.
Proof. vm_compute. repeat split. Qed.

Lemma displayedA_child :
  consistent displayedA
  /\ child displayedA
     = Some (loaderSuccess 0 (StlGeometry triangle)
               (mountModel {| url := 0; fileFormat := "stl"; p_viewMode := mode_normal;
                              p_objectColor := "#00b8d4" |}))
  /\ viewMode (settings (viewer displayedA)) = mode_normal
  /\ modelThrows (loaderSuccess 0 (StlGeometry triangle)
                    (mountModel {| url := 0; fileFormat := "stl";
                                   p_viewMode := mode_normal;
                                   p_objectColor := "#00b8d4" |})) = false.
Proof.
  destruct shownA_child as (Hc & Hchild & Hmode & _ & Hlive).
  destruct (loader_success_reaches_child 0 (StlGeometry triangle) shownA Hc)
    as [Hstep Hviewer].
  unfold displayedA. split; [apply step_consistent|]. split; [|split].
  - rewrite Hstep, Hchild. cbn [fmap option_fmap option_map].
    unfold whileMounted. rewrite Hlive. reflexivity.
  - rewrite Hviewer. exact Hmode.
  - unfold modelThrows in *. rewrite (proj1 (loaderSuccess_frame _ _ _)). exact Hlive.
Qed.

Lemma setters_and_reload_witness :
  consistent shownA
  /\ storeTraffic (step (SetViewMode mode_wireframe) shownA) = storeTraffic shownA
  /\ child (step (SetAutoRotate true) shownA) = child shownA
  /\ pipeline (step (SetObjectColor "#ff0000") shownA) = pipeline shownA
  /\ shownTransforms (step (SetViewMode mode_wireframe) shownA) = shownTransforms shownA
  /\ exists s',
       child (step (SetViewMode mode_wireframe) shownA) = Some s'
       /\ load_calls s' = [(STLLoader, 0); (STLLoader, 0)]
       /\ loads s' !! 1
          = Some {| loader := STLLoader; load_url := 0; load_viewMode := mode_wireframe;
                    load_objectColor := "#00b8d4"; isActive := true |}
       /\ loads s' !! 0
          = Some {| loader := STLLoader; load_url := 0; load_viewMode := mode_normal;
                    load_objectColor := "#00b8d4"; isActive := false |}.
Proof.
  destruct shownA_child as (Hc & Hchild & Hmode & Hcolor & Hlive).
  destruct (setters_and_reload shownA mode_wireframe "#ff0000" true Hc)
    as (Hstore & _ & _ & Hrotate & Hpipe & _ & Hshown & Hreload).
  split; [exact Hc|]. split; [exact Hstore|]. split; [exact Hrotate|].
  split; [exact Hpipe|]. split; [exact Hshown|].
  destruct (Hreload _ STLLoader Hchild Hlive) as (s' & Hs' & Hcalls & _ & Hnew & Hold).
  - rewrite Hmode. discriminate.
  - vm_compute. reflexivity.
  - exists s'. split; [exact Hs'|]. split; [|split].
    + rewrite Hcalls. vm_compute. reflexivity.
    + assert (Hn : next_load (mountModel {| url := 0; fileFormat := "stl";
                                           p_viewMode := mode_normal;
                                           p_objectColor := "#00b8d4" |}) = 1)
        by (vm_compute; reflexivity).
      rewrite Hn in Hnew. rewrite Hnew, Hcolor. vm_compute. reflexivity.
    + rewrite (Hold 0); [vm_compute; reflexivity|vm_compute; reflexivity|].
      vm_compute. discriminate.
Defined.

Lemma loaderSuccess_shows (k : nat) (payload : Payload) (s : ModelState) (l : Load) :
  loads s !! k = Some l ->
  isActive l = true ->
  match loader l, payload with
  | STLLoader, StlGeometry _ | OBJLoader, ObjGroup _ => True
  | _, _ => False
  end ->
  model (loaderSuccess k payload s) = true
  /\ modelRef (loaderSuccess k payload s)
     = [fst (onLoaded (load_objectColor l) (load_viewMode l) payload)].
Proof.
  intros Hk Hon Hkind. unfold loaderSuccess. rewrite Hk, Hon.
  destruct (loader l), payload; try contradiction; split; reflexivity.
Qed.

Lemma pipeline_load_calls (w1 w2 : World) :
  pipeline w1 = pipeline w2 -> (load_calls <$> child w1) = (load_calls <$> child w2).
Proof.
  unfold pipeline.
  destruct (child w1) as [s1|], (child w2) as [s2|];
    cbn [fmap option_fmap option_map]; intros E;
    [injection E as _ _ _ E; rewrite E; reflexivity
    |discriminate E|discriminate E|reflexivity].
Qed.

(** C7, as stated, fails for [setViewMode].  With model "a" on screen, the
    switch to wireframe makes [Model] call [STLLoader.load] a second time on
    the same URL, so the load pipeline is not what it was.  With model "a"
    still being parsed, the same switch deactivates the load under way and
    starts a second one. *)
Lemma view_mode_change_reloads :
  (model <$> child displayedA) = Some true
  /\ (load_calls <$> child displayedA) = Some [(STLLoader, 0)]
  /\ (load_calls <$> child (step (SetViewMode mode_wireframe) displayedA))
     = Some [(STLLoader, 0); (STLLoader, 0)]
  /\ pipeline (step (SetViewMode mode_wireframe) displayedA) <> pipeline displayedA
  /\ (child shownA ≫= fun s => isActive <$> loads s !! 0) = Some true
  /\ (child (step (SetViewMode mode_wireframe) shownA) ≫= fun s => isActive <$> loads s !! 0)
     = Some false
  /\ (child (step (SetViewMode mode_wireframe) shownA) ≫= fun s => isActive <$> loads s !! 1)
     = Some true.
Proof.
  destruct displayedA_child as (Hc & Hchild & Hmode & Hlive).
  assert (Hload : loads (mountModel {| url := 0; fileFormat := "stl";
                                       p_viewMode := mode_normal;
                                       p_objectColor := "#00b8d4" |}) !! 0
                  = Some {| loader := STLLoader; load_url := 0;
                            load_viewMode := mode_normal;
                            load_objectColor := "#00b8d4"; isActive := true |})
    by (vm_compute; reflexivity).
  assert (Hbefore : (load_calls <$> child displayedA) = Some [(STLLoader, 0)]).
  { rewrite Hchild. cbn [fmap option_fmap option_map].
    rewrite (proj2 (props_loaderSuccess _ _ _)). reflexivity. }
  assert (Hafter : (load_calls <$> child (step (SetViewMode mode_wireframe) displayedA))
                   = Some [(STLLoader, 0); (STLLoader, 0)]).
  { destruct (view_mode_reloads displayedA mode_wireframe _ STLLoader Hc Hchild Hlive)
      as (s' & -> & Hcalls & _).
    - rewrite Hmode. discriminate.
    - rewrite (proj1 (props_loaderSuccess _ _ _)). reflexivity.
    - cbn [fmap option_fmap option_map]. rewrite Hcalls.
      rewrite (proj2 (props_loaderSuccess _ _ _)), (proj1 (props_loaderSuccess _ _ _)).
      reflexivity. }
  destruct (loaderSuccess_shows 0 (StlGeometry triangle) _ _ Hload eq_refl I) as [Hmodel _].
  split; [|split; [exact Hbefore|split; [exact Hafter|split]]].
  - rewrite Hchild. cbn [fmap option_fmap option_map]. rewrite Hmodel. reflexivity.
  - intros E. apply pipeline_load_calls in E.
    rewrite Hbefore, Hafter in E. discriminate E.
  - vm_compute. repeat split.
Qed.


(* ================================================================== *)
(** * Further properties of the components *)
(* ================================================================== *)

(** ** The [Model] component over its lifetime *)

Lemma loadsInOrder_mount (p : ModelProps) : loadsInOrder (mountModel p).
Proof.
  unfold loadsInOrder, mountModel, loadEffect.
  destruct (loaderFor (fileFormat p)) as [l|] eqn:Hl;
    cbn [colorEffect loads effect_load next_load props].
  - split; [|split].
    + intros k ld Hk _. apply lookup_insert_Some in Hk as [[<- _]|[_ Hk]];
        [reflexivity|]. rewrite lookup_empty in Hk. discriminate.
    + intros k ld E Hk. injection E as <-. rewrite lookup_insert_eq in Hk.
      injection Hk as <-. cbn. repeat split. exact Hl.
    + intros k [ld Hk]. apply lookup_insert_Some in Hk as [[<- _]|[_ Hk]]; [lia|].
      rewrite lookup_empty in Hk. discriminate.
  - split; [|split].
    + intros k ld Hk. rewrite lookup_empty in Hk. discriminate.
    + intros k ld E. discriminate.
    + intros k [ld Hk]. rewrite lookup_empty in Hk. discriminate.
Qed.

Lemma loadsInOrder_finish (k : nat) (s : ModelState) :
  loadsInOrder s -> loadsInOrder (finishLoad k s).
Proof.
  unfold loadsInOrder, finishLoad. cbn [loads effect_load next_load props].
  intros (Hact & Hcur & Hfresh). split; [|split].
  - intros j l Hj. apply lookup_delete_Some in Hj as [_ Hj]. eauto.
  - intros j l E Hj. apply lookup_delete_Some in Hj as [_ Hj]. eauto.
  - intros j [l Hj]. apply lookup_delete_Some in Hj as [_ Hj]. eauto.
Qed.

Lemma loadsInOrder_ext (s t : ModelState) :
  loads t = loads s -> effect_load t = effect_load s -> next_load t = next_load s ->
  url (props t) = url (props s) -> fileFormat (props t) = fileFormat (props s) ->
  p_viewMode (props t) = p_viewMode (props s) ->
  loadsInOrder s -> loadsInOrder t.
Proof.
  unfold loadsInOrder. intros -> -> -> -> -> ->. trivial.
Qed.

Lemma loadsInOrder_reload (p : ModelProps) (s : ModelState) :
  loadsInOrder s -> loadsInOrder (loadEffect p (loadCleanup (withProps p s))).
Proof.
  intros (Hact & Hcur & Hfresh).
  assert (Hoff : forall k l,
             loads (loadCleanup (withProps p s)) !! k = Some l -> isActive l = false).
  { intros k l. unfold loadCleanup, withProps. cbn [loads effect_load].
    destruct (effect_load s) as [j|] eqn:Ej.
    - intros Hk. apply lookup_alter_Some in Hk as [(<- & l0 & Hl0 & ->)|[Hne Hk]];
        [reflexivity|].
      destruct (isActive l) eqn:Hon; [|reflexivity].
      specialize (Hact k l Hk Hon). congruence.
    - intros Hk. destruct (isActive l) eqn:Hon; [|reflexivity].
      specialize (Hact k l Hk Hon). congruence. }
  assert (Hfresh' : forall k, is_Some (loads (loadCleanup (withProps p s)) !! k) ->
                              k < next_load s).
  { intros k [l Hk]. apply Hfresh. unfold loadCleanup, withProps in Hk.
    cbn [loads effect_load] in Hk.
    destruct (effect_load s) as [j|]; [|eauto].
    apply lookup_alter_Some in Hk as [(<- & l0 & Hl0 & _)|[_ Hk]]; eauto. }
  unfold loadsInOrder, loadEffect.
  destruct (loaderFor (fileFormat p)) as [ld|] eqn:Hl;
    cbn [loads effect_load next_load props loadCleanup withProps] in *.
  - split; [|split].
    + intros k l Hk Hon. apply lookup_insert_Some in Hk as [[<- _]|[_ Hk]];
        [reflexivity|].
      rewrite (Hoff k l Hk) in Hon. discriminate.
    + intros k l E Hk. injection E as <-. rewrite lookup_insert_eq in Hk.
      injection Hk as <-. cbn. repeat split. exact Hl.
    + intros k [l Hk]. apply lookup_insert_Some in Hk as [[<- _]|[_ Hk]]; [lia|].
      assert (k < next_load s) by eauto. lia.
  - split; [|split].
    + intros k l Hk Hon. rewrite (Hoff k l Hk) in Hon. discriminate.
    + intros k l E. discriminate.
    + intros k Hk. apply Hfresh', Hk.
Qed.

Lemma loadsInOrder_step (s : ModelState) (e : ModelEvent) :
  loadsInOrder s -> loadsInOrder (modelStep s e).
Proof.
  intros Hinv. unfold modelStep. destruct (modelThrows s); [exact Hinv|].
  destruct e as [p|k payload|k].
  - unfold updateModel.
    destruct (loadDepsChanged (props s) p) eqn:Hdeps.
    + destruct (bool_decide (p_objectColor (props s) = p_objectColor p));
        [apply loadsInOrder_reload, Hinv|].
      eapply loadsInOrder_ext; [..|apply (loadsInOrder_reload p s Hinv)]; reflexivity.
    + unfold loadDepsChanged in Hdeps. apply negb_false_iff in Hdeps.
      apply andb_prop in Hdeps as [Hdeps Hm]. apply andb_prop in Hdeps as [Hu Hf].
      apply bool_decide_eq_true_1 in Hu, Hf, Hm.
      destruct (bool_decide (p_objectColor (props s) = p_objectColor p));
        (eapply loadsInOrder_ext; [..|exact Hinv]); cbn; congruence.
  - unfold loaderSuccess. destruct (loads s !! k) as [l|]; [|exact Hinv].
    destruct (loader l), payload, (isActive l); try exact Hinv;
      try (apply loadsInOrder_finish; exact Hinv);
      (eapply loadsInOrder_ext; [..|apply (loadsInOrder_finish k s Hinv)]; reflexivity).
  - unfold loaderError. destruct (loads s !! k) as [l|]; [|exact Hinv].
    eapply loadsInOrder_ext; [..|apply (loadsInOrder_finish k s Hinv)]; reflexivity.
Qed.

(** The [isActive] guard over the life of a [Model]: after any sequence of
    renders and loader callbacks since the mount, a pending load that is
    still active is the only one, and it was started for the current [url],
    [fileFormat] and [viewMode].  With [superseded_loader_success_ignored]:
    only a geometry loaded for the current URL, format and view mode can
    become the shown model. *)
Theorem active_load_is_current (p : ModelProps) (es : list ModelEvent)
    (k : nat) (l : Load) :
  loads (modelRun es (mountModel p)) !! k = Some l ->
  isActive l = true ->
  load_url l = url (props (modelRun es (mountModel p)))
  /\ load_viewMode l = p_viewMode (props (modelRun es (mountModel p)))
  /\ loaderFor (fileFormat (props (modelRun es (mountModel p)))) = Some (loader l)
  /\ (forall k' l', loads (modelRun es (mountModel p)) !! k' = Some l' ->
                    isActive l' = true -> k' = k).
Proof.
  assert (Hinv : loadsInOrder (modelRun es (mountModel p))).
  { unfold modelRun. generalize (loadsInOrder_mount p). generalize (mountModel p).
    induction es as [|e es IH]; intros s Hs; cbn [fold_left]; [exact Hs|].
    apply IH, loadsInOrder_step, Hs. }
  destruct Hinv as (Hact & Hcur & _). intros Hk Hon.
  pose proof (Hact k l Hk Hon) as He.
  destruct (Hcur k l He Hk) as (_ & Hu & Hm & Hf).
  repeat split; try assumption.
  intros k' l' Hk' Hon'. specialize (Hact k' l' Hk' Hon'). congruence.
Qed.

Lemma active_load_is_current_witness :
  load_url {| loader := STLLoader; load_url := 0; load_viewMode := mode_wireframe;
              load_objectColor := "#00b8d4"; isActive := true |}
  = url (props (modelRun
                  [Rendered {| url := 0; fileFormat := "stl"; p_viewMode := mode_wireframe;
                               p_objectColor := "#00b8d4" |}]
                  (mountModel {| url := 0; fileFormat := "stl"; p_viewMode := mode_normal;
                                 p_objectColor := "#00b8d4" |})))
  /\ forall k' l',
       loads (modelRun
                [Rendered {| url := 0; fileFormat := "stl"; p_viewMode := mode_wireframe;
                             p_objectColor := "#00b8d4" |}]
                (mountModel {| url := 0; fileFormat := "stl"; p_viewMode := mode_normal;
                               p_objectColor := "#00b8d4" |})) !! k' = Some l' ->
       isActive l' = true -> k' = 1.
Proof.
  assert (Hk : loads (modelRun
                        [Rendered {| url := 0; fileFormat := "stl";
                                     p_viewMode := mode_wireframe;
                                     p_objectColor := "#00b8d4" |}]
                        (mountModel {| url := 0; fileFormat := "stl";
                                       p_viewMode := mode_normal;
                                       p_objectColor := "#00b8d4" |})) !! 1
               = Some {| loader := STLLoader; load_url := 0;
                         load_viewMode := mode_wireframe;
                         load_objectColor := "#00b8d4"; isActive := true |})
    by (vm_compute; reflexivity).
  destruct (active_load_is_current _ _ _ _ Hk eq_refl) as (Hu & _ & _ & Honly).
  split; [exact Hu|exact Honly].
Defined.

(** ** Materials of what is shown *)

Lemma meshMaterials_recolor (c : string) (o : SceneObject) :
  meshMaterials (recolor c o) = map (fun m => set_color m c) (meshMaterials o).
Proof.
  destruct o as [m|g]; [reflexivity|].
  cbn [recolor meshMaterials children].
  induction (children g) as [|ch chs IH]; [reflexivity|].
  cbn [map]. destruct (child_is_mesh ch) eqn:Hm.
  - cbn [List.filter child_is_mesh]. rewrite Hm. cbn [map child_material].
    f_equal. exact IH.
  - cbn [List.filter]. rewrite Hm. exact IH.
Qed.

(** The colour effect.  When [Model] is rendered with another
    [objectColor], every mesh it shows has that colour afterwards, and
    nothing else of any material has changed: the same materials, in the
    same order, with only the colour replaced. *)
Theorem color_change_recolors_meshes (p : ModelProps) (s : ModelState) :
  p_objectColor p <> p_objectColor (props s) ->
  concat (map meshMaterials (modelRef (updateModel p s)))
  = map (fun m => set_color m (p_objectColor p))
        (concat (map meshMaterials (modelRef s)))
  /\ Forall (fun m => mat_color m = p_objectColor p)
            (concat (map meshMaterials (modelRef (updateModel p s)))).
Proof.
  intros Hnew.
  assert (Href : modelRef (updateModel p s) = map (recolor (p_objectColor p)) (modelRef s)).
  { unfold updateModel.
    rewrite (bool_decide_eq_false_2 (p_objectColor (props s) = p_objectColor p))
      by congruence.
    destruct (loadDepsChanged (props s) p); cbn [colorEffect modelRef];
      rewrite ?modelRef_loadEffect; reflexivity. }
  assert (Hmats : concat (map meshMaterials (modelRef (updateModel p s)))
                  = map (fun m => set_color m (p_objectColor p))
                        (concat (map meshMaterials (modelRef s)))).
  { rewrite Href, map_map. clear Href.
    induction (modelRef s) as [|o os IH]; [reflexivity|].
    cbn [map concat]. rewrite map_app, meshMaterials_recolor. f_equal. exact IH. }
  split; [exact Hmats|].
  rewrite Hmats. apply Forall_forall. intros m Hin. apply list_elem_of_In in Hin.
  apply in_map_iff in Hin as (m0 & <- & _). reflexivity.
Qed.

Lemma color_change_recolors_meshes_witness :
  "#ff0000" <> p_objectColor
                 (props (loaderSuccess 0 (StlGeometry triangle)
                           (mountModel {| url := 0; fileFormat := "stl";
                                          p_viewMode := mode_normal;
                                          p_objectColor := "#00b8d4" |})))
  /\ concat (map meshMaterials
       (modelRef (updateModel
                    {| url := 0; fileFormat := "stl"; p_viewMode := mode_normal;
                       p_objectColor := "#ff0000" |}
                    (loaderSuccess 0 (StlGeometry triangle)
                       (mountModel {| url := 0; fileFormat := "stl";
                                      p_viewMode := mode_normal;
                                      p_objectColor := "#00b8d4" |})))))
     = [set_color (createMaterial "#00b8d4" mode_normal) "#ff0000"]
  /\ Forall (fun m => mat_color m = "#ff0000")
       (concat (map meshMaterials
          (modelRef (updateModel
                       {| url := 0; fileFormat := "stl"; p_viewMode := mode_normal;
                          p_objectColor := "#ff0000" |}
                       (loaderSuccess 0 (StlGeometry triangle)
                          (mountModel {| url := 0; fileFormat := "stl";
                                         p_viewMode := mode_normal;
                                         p_objectColor := "#00b8d4" |})))))).
Proof.
  set (pA := {| url := 0; fileFormat := "stl"; p_viewMode := mode_normal;
                p_objectColor := "#00b8d4" |}).
  assert (Hload : loads (mountModel pA) !! 0
                  = Some {| loader := STLLoader; load_url := 0;
                            load_viewMode := mode_normal;
                            load_objectColor := "#00b8d4"; isActive := true |})
    by (vm_compute; reflexivity).
  destruct (loaderSuccess_shows 0 (StlGeometry triangle) _ _ Hload eq_refl I)
    as [_ Href].
  destruct (props_loaderSuccess 0 (StlGeometry triangle) (mountModel pA))
    as [Hprops _].
  assert (H : "#ff0000" <> p_objectColor
                             (props (loaderSuccess 0 (StlGeometry triangle)
                                       (mountModel pA)))).
  { rewrite Hprops. vm_compute. intros E. discriminate E. }
  destruct (color_change_recolors_meshes
              {| url := 0; fileFormat := "stl"; p_viewMode := mode_normal;
                 p_objectColor := "#ff0000" |} _ H) as [Hmats Hall].
  split; [exact H|]. split; [|exact Hall].
  rewrite Hmats, Href. cbn [load_objectColor load_viewMode map concat].
  unfold onLoaded, onStlLoaded.
  destruct (centerAndScale _ _) as [pl ds]. reflexivity.
Defined.

(** The material of a freshly shown object.  When the success callback of an
    active load runs, the shown object is replaced by the loaded one and each
    of its meshes carries [createMaterial] of the view mode and of the colour
    that were current when the load was started: a colour chosen while the
    file was loading is not the one the model appears in. *)
Theorem loaded_meshes_carry_captured_material (k : nat) (payload : Payload)
    (s : ModelState) (l : Load) :
  loads s !! k = Some l ->
  isActive l = true ->
  match loader l, payload with
  | STLLoader, StlGeometry _ | OBJLoader, ObjGroup _ => True
  | _, _ => False
  end ->
  model (loaderSuccess k payload s) = true
  /\ length (modelRef (loaderSuccess k payload s)) = 1
  /\ Forall (fun m => m = createMaterial (load_objectColor l) (load_viewMode l))
            (concat (map meshMaterials (modelRef (loaderSuccess k payload s))))
  /\ loads (loaderSuccess k payload s) !! k = None.
Proof.
  intros Hk Hon Hkind.
  destruct (loaderSuccess_shows k payload s l Hk Hon Hkind) as [Hmodel Href].
  split; [exact Hmodel|]. rewrite Href. split; [reflexivity|]. split.
  - cbn [map concat]. rewrite app_nil_r.
    destruct payload as [g|cs]; destruct (loader l); try contradiction.
    + unfold onLoaded, onStlLoaded. destruct (centerAndScale _ _) as [pl ds].
      cbn [fst meshMaterials material]. repeat constructor.
    + unfold onLoaded, onObjLoaded. destruct (centerAndScale _ _) as [pl ds].
      cbn [fst meshMaterials children].
      apply Forall_forall. intros m Hin. apply list_elem_of_In in Hin.
      apply in_map_iff in Hin as (ch & <- & Hch).
      apply filter_In in Hch as [Hch Hmesh].
      apply in_map_iff in Hch as (ch0 & <- & _).
      destruct (child_is_mesh ch0) eqn:E; [reflexivity|].
      rewrite E in Hmesh. discriminate.
  - unfold loaderSuccess. rewrite Hk, Hon.
    destruct (loader l), payload; try contradiction;
      cbn [finishLoad loads]; apply lookup_delete_eq.
Qed.

Lemma loaded_meshes_carry_captured_material_witness :
  Forall (fun m => m = createMaterial "#00b8d4" mode_normal)
    (concat (map meshMaterials
       (modelRef (loaderSuccess 0 (StlGeometry triangle)
                    (updateModel
                       {| url := 0; fileFormat := "stl"; p_viewMode := mode_normal;
                          p_objectColor := "#ff0000" |}
                       (mountModel {| url := 0; fileFormat := "stl";
                                      p_viewMode := mode_normal;
                                      p_objectColor := "#00b8d4" |})))))).
Proof.
  assert (Hk : loads (updateModel
                        {| url := 0; fileFormat := "stl"; p_viewMode := mode_normal;
                           p_objectColor := "#ff0000" |}
                        (mountModel {| url := 0; fileFormat := "stl";
                                       p_viewMode := mode_normal;
                                       p_objectColor := "#00b8d4" |})) !! 0
               = Some {| loader := STLLoader; load_url := 0;
                         load_viewMode := mode_normal;
                         load_objectColor := "#00b8d4"; isActive := true |})
    by (vm_compute; reflexivity).
  destruct (loaded_meshes_carry_captured_material 0 (StlGeometry triangle) _ _ Hk eq_refl I)
    as (_ & _ & Hmat & _).
  exact Hmat.
Defined.

(** ** Placement and camera, further *)

Section PlacementAndCamera.
Local Open Scope R_scope.

Lemma onLoaded_placement (objectColor : string) (viewMode : ViewMode) (payload : Payload) :
  placementOf (fst (onLoaded objectColor viewMode payload))
  = fst (centerAndScale (setFromPoints (payloadVertices payload)) defaultPlacement)
  /\ worldBox (fst (onLoaded objectColor viewMode payload))
     = setFromPoints
         (map (localToWorld (placementOf (fst (onLoaded objectColor viewMode payload))))
              (payloadVertices payload)).
Proof.
  destruct payload as [g|cs]; cbn [payloadVertices].
  - assert (Hpos : attr_position (match attr_normal g with
                                  | Some _ => g
                                  | None => computeVertexNormals g
                                  end) = attr_position g)
      by (destruct (attr_normal g); reflexivity).
    unfold onLoaded, onStlLoaded. rewrite Hpos.
    destruct (centerAndScale _ _) as [p ds].
    cbn [fst placementOf worldBox placement]. unfold worldBoxOfMesh.
    cbn [geometry placement]. rewrite Hpos. split; reflexivity.
  - unfold onLoaded, onObjLoaded. rewrite setFromObject_vertices.
    cbn [group_placement children].
    destruct (centerAndScale _ _) as [p ds].
    cbn [fst placementOf worldBox group_placement]. unfold worldBoxOfGroup.
    cbn [group_placement].
    rewrite (groupVertices_same_geometry p defaultPlacement).
    + split; reflexivity.
    + intros c. destruct (child_is_mesh c); reflexivity.
Qed.

(** Where the placed object ends up.  For a loaded geometry with at least one
    vertex whose bounding box has centre [c] and a positive largest dimension
    [maxDim], the bounding box of the placed vertices has its centre at
    [(2/maxDim - 1) * c]: the scale acts on the vertices before the position
    is added, so the object sits around the origin exactly when its own
    centre is the origin or its largest dimension is 2. *)
Theorem placed_box_center (objectColor : string) (viewMode : ViewMode)
    (payload : Payload) :
  payloadVertices payload <> [] ->
  0 < max3 (getSize (setFromPoints (payloadVertices payload))) ->
  getCenter (worldBox (fst (onLoaded objectColor viewMode payload)))
  = multiplyScalar (getCenter (setFromPoints (payloadVertices payload)))
                   (2 / max3 (getSize (setFromPoints (payloadVertices payload))) - 1)
  /\ (getCenter (worldBox (fst (onLoaded objectColor viewMode payload))) = vzero
      <-> getCenter (setFromPoints (payloadVertices payload)) = vzero
          \/ max3 (getSize (setFromPoints (payloadVertices payload))) = 2).
Proof.
  intros Hne Hpos.
  destruct (onLoaded_placement objectColor viewMode payload) as [Hp Hbox].
  destruct (setFromPoints_box _ Hne) as (mn & mx & E & _).
  rewrite Hbox, Hp. rewrite centerAndScale_fits by exact Hpos. cbn [fst].
  set (d := max3 (getSize (setFromPoints (payloadVertices payload)))) in *.
  set (t := {| position := _; scale := _ |}).
  rewrite (setFromPoints_moved t (2 / d)); [|reflexivity|apply Rlt_le, Rdiv_lt_0_compat; lra].
  subst t. rewrite E. cbn [moveBox getCenter].
  assert (Hc : forall k : R,
             multiplyScalar
               (vadd (localToWorld
                        {| position := V3 (- vx (multiplyScalar (vadd mn mx) 0.5))
                                          (- vy (multiplyScalar (vadd mn mx) 0.5))
                                          (- vz (multiplyScalar (vadd mn mx) 0.5));
                           scale := V3 k k k |} mn)
                     (localToWorld
                        {| position := V3 (- vx (multiplyScalar (vadd mn mx) 0.5))
                                          (- vy (multiplyScalar (vadd mn mx) 0.5))
                                          (- vz (multiplyScalar (vadd mn mx) 0.5));
                           scale := V3 k k k |} mx)) 0.5
             = multiplyScalar (multiplyScalar (vadd mn mx) 0.5) (k - 1)).
  { intros k. destruct mn as [x0 y0 z0], mx as [x1 y1 z1].
    unfold localToWorld, multiplyScalar, vadd, vmul. cbn [vx vy vz position scale].
    f_equal; lra. }
  rewrite Hc. split; [reflexivity|].
  unfold multiplyScalar, vadd, vzero. cbn [vx vy vz].
  split.
  - intros H. injection H as Hx Hy Hz.
    destruct (Req_dec_T (2 / d - 1) 0) as [Hs|Hs].
    + right. assert (Hd : 2 / d = 1) by lra.
      apply (f_equal (fun r => r * d)) in Hd. field_simplify in Hd; lra.
    + left. f_equal; nra.
  - intros [H|H].
    + injection H as Hx Hy Hz. f_equal; nra.
    + rewrite H. f_equal; field.
Qed.

Lemma placed_box_center_witness :
  payloadVertices (StlGeometry triangle) <> []
  /\ 0 < max3 (getSize (setFromPoints (payloadVertices (StlGeometry triangle))))
  /\ getCenter (worldBox (fst (onLoaded "#00b8d4" mode_normal (StlGeometry triangle))))
     = multiplyScalar (getCenter (setFromPoints (payloadVertices (StlGeometry triangle))))
         (2 / max3 (getSize (setFromPoints (payloadVertices (StlGeometry triangle)))) - 1).
Proof.
  assert (Hne : payloadVertices (StlGeometry triangle) <> []) by (simpl; discriminate).
  assert (Hpos : 0 < max3 (getSize (setFromPoints (payloadVertices (StlGeometry triangle))))).
  { unfold max3. eapply Rlt_le_trans; [|apply Rmax_l].
    eapply Rlt_le_trans; [|apply Rmax_l].
    unfold payloadVertices, triangle, setFromPoints, expandByPoints.
    cbn [attr_position fold_left expandByPoint]. unfold getSize, vsub, vmin, vmax.
    cbn [vx vy vz].
    rewrite (Rmax_right 0 1), (Rmax_left 1 0), (Rmin_left 0 1), (Rmin_left 0 0); lra. }
  split; [exact Hne|]. split; [exact Hpos|].
  apply (placed_box_center "#00b8d4" mode_normal (StlGeometry triangle) Hne Hpos).
Defined.

Lemma tan_half_fov_positive (c : Camera) :
  match cam_fov c with
  | Some degrees => 0 < degrees < 180
  | None => True
  end ->
  0 < tan (fovRadians c / 2).
Proof.
  intros Hfov. pose proof PI_RGT_0 as Hpi. unfold fovRadians.
  apply tan_gt_0; destruct (cam_fov c) as [d|]; try nra.
Qed.

(** How far the camera is put.  For a bounding box with a positive largest
    dimension and a camera whose field of view lies strictly between 0 and
    180 degrees (any camera that is not a perspective camera counts as 45
    degrees), the computed distance is positive, the new camera position is
    exactly that far from the box centre it looks at, and the field of view
    is left as it was. *)
Theorem camera_sits_at_frame_distance (box : Box3) (s : SceneView) :
  0 < max3 (getSize box) ->
  match cam_fov (camera s) with
  | Some degrees => 0 < degrees < 180
  | None => True
  end ->
  0 < frameDistance (camera s) (max3 (getSize box))
  /\ vlength (vsub (cam_position (camera (fst (frame box s)))) (getCenter box))
     = frameDistance (camera s) (max3 (getSize box))
  /\ cam_fov (camera (fst (frame box s))) = cam_fov (camera s).
Proof.
  intros Hpos Hfov.
  pose proof (tan_half_fov_positive (camera s) Hfov) as Htan.
  assert (Hd : 0 < frameDistance (camera s) (max3 (getSize box))).
  { unfold frameDistance. apply Rmult_lt_0_compat; [|lra].
    apply Rdiv_lt_0_compat; [lra|exact Htan]. }
  split; [exact Hd|].
  unfold frame. destruct (Rlt_dec 0 (max3 (getSize box))) as [_|Hn]; [|contradiction].
  cbn [fst camera cam_position cam_fov]. split; [|reflexivity].
  set (d := frameDistance (camera s) (max3 (getSize box))) in *.
  rewrite normalize_one_one_one.
  unfold vlength, vsub, vadd, multiplyScalar. cbn [vx vy vz].
  assert (Hs : 0 < sqrt 3) by (apply sqrt_lt_R0; lra).
  assert (Hss : sqrt 3 * sqrt 3 = 3) by (apply sqrt_sqrt; lra).
  replace (_ + _ + _) with (d * d).
  - apply sqrt_square. lra.
  - set (c := getCenter box).
    replace (vx c + 1 / sqrt 3 * d - vx c) with (d / sqrt 3) by (field; lra).
    replace (vy c + 1 / sqrt 3 * d - vy c) with (d / sqrt 3) by (field; lra).
    replace (vz c + 1 / sqrt 3 * d - vz c) with (d / sqrt 3) by (field; lra).
    replace (d / sqrt 3 * (d / sqrt 3)) with (d * d / (sqrt 3 * sqrt 3)) by (field; lra).
    rewrite Hss. field.
Qed.

Lemma camera_sits_at_frame_distance_witness :
  0 < max3 (getSize (Box (V3 0 0 0) (V3 2 2 2)))
  /\ 0 < frameDistance {| cam_position := V3 0 0 5; cam_lookAt := None; cam_fov := Some 50 |}
                       (max3 (getSize (Box (V3 0 0 0) (V3 2 2 2))))
  /\ vlength (vsub (cam_position (camera (fst (frame (Box (V3 0 0 0) (V3 2 2 2))
                      {| controls_target := Some vzero;
                         camera := {| cam_position := V3 0 0 5; cam_lookAt := None;
                                      cam_fov := Some 50 |} |}))))
                   (getCenter (Box (V3 0 0 0) (V3 2 2 2))))
     = frameDistance {| cam_position := V3 0 0 5; cam_lookAt := None; cam_fov := Some 50 |}
                     (max3 (getSize (Box (V3 0 0 0) (V3 2 2 2)))).
Proof.
  assert (Hpos : 0 < max3 (getSize (Box (V3 0 0 0) (V3 2 2 2)))).
  { unfold getSize, vsub. cbn [vx vy vz]. rewrite max3_cube. lra. }
  assert (Hfov : match cam_fov (camera {| controls_target := Some vzero;
                                          camera := {| cam_position := V3 0 0 5;
                                                       cam_lookAt := None;
                                                       cam_fov := Some 50 |} |}) with
                 | Some degrees => 0 < degrees < 180
                 | None => True
                 end) by (cbn; lra).
  destruct (camera_sits_at_frame_distance
              (Box (V3 0 0 0) (V3 2 2 2))
              {| controls_target := Some vzero;
                 camera := {| cam_position := V3 0 0 5; cam_lookAt := None;
                              cam_fov := Some 50 |} |} Hpos Hfov) as (Hd & Hlen & _).
  split; [exact Hpos|]. split; [exact Hd|exact Hlen].
Defined.

Lemma expandByPoints_concat (meshes : list (list Vector3)) :
  forall b, fold_left expandByPoints meshes b = expandByPoints b (concat meshes).
Proof.
  induction meshes as [|vs meshes IH]; intros b; cbn [fold_left concat]; [reflexivity|].
  rewrite IH. unfold expandByPoints. rewrite fold_left_app. reflexivity.
Qed.

(** What the auto-centre effect frames.  With the controls in place and at
    least one mesh in the scene, the effect frames the one bounding box of
    the vertices of all meshes taken together; without controls, or without
    any mesh, it changes nothing and divides nothing; and it never changes
    the camera's field of view. *)
Theorem autoCenter_frames_all_meshes (meshes : list (list Vector3)) (s : SceneView)
    (target : Vector3) :
  controls_target s = Some target ->
  meshes <> [] ->
  autoCenter meshes s = frame (setFromPoints (concat meshes)) s
  /\ autoCenter [] s = (s, [])
  /\ autoCenter meshes {| controls_target := None; camera := camera s |}
     = ({| controls_target := None; camera := camera s |}, [])
  /\ cam_fov (camera (fst (autoCenter meshes s))) = cam_fov (camera s).
Proof.
  intros Hc Hne.
  assert (Hframe : autoCenter meshes s = frame (setFromPoints (concat meshes)) s).
  { unfold autoCenter. rewrite Hc. destruct meshes as [|vs meshes]; [congruence|].
    rewrite expandByPoints_concat. reflexivity. }
  split; [exact Hframe|]. split; [|split].
  - unfold autoCenter. destruct (controls_target s); reflexivity.
  - reflexivity.
  - rewrite Hframe. unfold frame. destruct (Rlt_dec _ _); reflexivity.
Qed.

Lemma autoCenter_frames_all_meshes_witness :
  autoCenter [[V3 0 0 0; V3 1 0 0]; [V3 0 4 0]]
             {| controls_target := Some vzero;
                camera := {| cam_position := V3 0 0 5; cam_lookAt := None;
                             cam_fov := Some 50 |} |}
  = frame (setFromPoints [V3 0 0 0; V3 1 0 0; V3 0 4 0])
          {| controls_target := Some vzero;
             camera := {| cam_position := V3 0 0 5; cam_lookAt := None;
                          cam_fov := Some 50 |} |}.
Proof.
  destruct (autoCenter_frames_all_meshes
              [[V3 0 0 0; V3 1 0 0]; [V3 0 4 0]]
              {| controls_target := Some vzero;
                 camera := {| cam_position := V3 0 0 5; cam_lookAt := None;
                              cam_fov := Some 50 |} |}
              vzero eq_refl) as (H & _).
  - discriminate.
  - exact H.
Defined.

End PlacementAndCamera.

(** ** The model list of [App] *)

(** Deleting keeps the selection on the list, if nothing else moved it.  If
    the selection was on the list when delete was clicked, and the selection
    is still the same when the response arrives, then after a successful
    deletion the selection, when there is one, is the id of a model of the
    new list, whichever model was deleted.  (Without the second condition
    this fails: see [list_delete_clears_selection].) *)
Theorem delete_keeps_selection_listed {Id : Type} (toString : Id -> string)
    (seen now : App.AppState (Id:=Id)) (modelId : string) (status : nat) :
  App.selectionListed toString seen ->
  App.activeModelId now = App.activeModelId seen ->
  App.selectionListed toString
    (App.afterDelete toString seen modelId (Responded true status) now).
Proof.
  unfold App.selectionListed, App.listedIds, App.afterDelete.
  cbn [App.models App.activeModelId]. intros Hin Hsame x.
  destruct (bool_decide (App.activeModelId seen = Some modelId)) eqn:Hb.
  - destruct (App.others toString modelId (App.models seen)) as [|first rest];
      [discriminate|].
    intros E. injection E as <-. left. reflexivity.
  - apply bool_decide_eq_false_1 in Hb. rewrite Hsame. intros Hx.
    specialize (Hin x Hx). apply in_map_iff in Hin as (m & Hm & Hlisted).
    apply in_map_iff. exists m. split; [exact Hm|].
    unfold App.others. apply filter_In. split; [exact Hlisted|].
    rewrite Hm. destruct (String.eqb_spec x modelId) as [->|_]; [|reflexivity].
    congruence.
Qed.

Lemma delete_keeps_selection_listed_witness :
  App.selectionListed (pretty : nat -> string)
    {| App.models := [ {| App.id := 1; App.row_name := "bracket.stl";
                          App.row_file_format := "stl" |};
                       {| App.id := 2; App.row_name := "gear.obj";
                          App.row_file_format := "obj" |} ];
       App.activeModelId := Some "2" |}
  /\ App.selectionListed (pretty : nat -> string)
       (App.afterDelete (pretty : nat -> string)
          {| App.models := [ {| App.id := 1; App.row_name := "bracket.stl";
                                App.row_file_format := "stl" |};
                             {| App.id := 2; App.row_name := "gear.obj";
                                App.row_file_format := "obj" |} ];
             App.activeModelId := Some "2" |}
          "2" (Responded true 204)
          {| App.models := [ {| App.id := 1; App.row_name := "bracket.stl";
                                App.row_file_format := "stl" |};
                             {| App.id := 2; App.row_name := "gear.obj";
                                App.row_file_format := "obj" |} ];
             App.activeModelId := Some "2" |}).
Proof.
  assert (H : App.selectionListed (pretty : nat -> string)
                {| App.models := [ {| App.id := 1; App.row_name := "bracket.stl";
                                      App.row_file_format := "stl" |};
                                   {| App.id := 2; App.row_name := "gear.obj";
                                      App.row_file_format := "obj" |} ];
                   App.activeModelId := Some "2" |}).
  { intros x E. injection E as <-. right. left. vm_compute. reflexivity. }
  split; [exact H|].
  apply (delete_keeps_selection_listed (pretty : nat -> string) _ _ "2" 204 H).
  reflexivity.
Defined.

(** What [fetchModels] does to the selection.  The handler decides by the
    selection of the render it was created in ([seen]): if that was null and
    the list that arrives is not empty, the selection becomes the first
    model of the list, whatever is selected by now, and is then on the list;
    if it was a non-empty id, or the list is empty, the selection is left as
    it is now.  The list is replaced by the data; a failed fetch changes
    nothing. *)
Theorem fetchModels_selects_first {Id : Type} (toString : Id -> string)
    (seen now : App.AppState (Id:=Id)) (data : list (App.ModelRow (Id:=Id))) :
  (App.activeModelId seen = None ->
     App.activeModelId (App.afterFetchModels toString seen (Some data) now)
     = match head (map (fun m => toString (App.id m)) data) with
       | Some first => Some first
       | None => App.activeModelId now
       end
     /\ (data <> [] ->
         App.selectionListed toString
           (App.afterFetchModels toString seen (Some data) now)))
  /\ (truthy (App.activeModelId seen) = true ->
      App.activeModelId (App.afterFetchModels toString seen (Some data) now)
      = App.activeModelId now)
  /\ App.models (App.afterFetchModels toString seen (Some data) now) = data
  /\ App.afterFetchModels toString seen None now = now.
Proof.
  unfold App.afterFetchModels, App.selectionListed, App.listedIds.
  cbn [App.models App.activeModelId].
  split; [|split; [|split; reflexivity]].
  - intros Hnone. rewrite Hnone. cbn [truthy].
    destruct data as [|first rest]; cbn [map head]; split; try reflexivity.
    + intros Hne. congruence.
    + intros _ x E. injection E as <-. left. reflexivity.
  - intros Hsel. rewrite Hsel. destruct data; reflexivity.
Qed.

Lemma fetchModels_selects_first_witness :
  App.activeModelId
    (App.afterFetchModels (pretty : nat -> string)
       {| App.models := []; App.activeModelId := None |}
       (Some [ {| App.id := 7; App.row_name := "bracket.stl";
                  App.row_file_format := "stl" |};
               {| App.id := 9; App.row_name := "gear.obj";
                  App.row_file_format := "obj" |} ])
       {| App.models := []; App.activeModelId := Some "9" |})
  = Some "7"
  /\ App.activeModelId
       (App.afterFetchModels (pretty : nat -> string)
          {| App.models := []; App.activeModelId := Some "3" |}
          (Some [ {| App.id := 7; App.row_name := "bracket.stl";
                     App.row_file_format := "stl" |} ])
          {| App.models := []; App.activeModelId := Some "9" |})
     = Some "9".
Proof.
  split.
  - destruct (fetchModels_selects_first (pretty : nat -> string)
                {| App.models := []; App.activeModelId := None |}
                {| App.models := []; App.activeModelId := Some "9" |}
                [ {| App.id := 7; App.row_name := "bracket.stl";
                     App.row_file_format := "stl" |};
                  {| App.id := 9; App.row_name := "gear.obj";
                     App.row_file_format := "obj" |} ]) as (Hnone & _).
    destruct (Hnone eq_refl) as [Hfirst _]. rewrite Hfirst. vm_compute. reflexivity.
  - destruct (fetchModels_selects_first (pretty : nat -> string)
                {| App.models := []; App.activeModelId := Some "3" |}
                {| App.models := []; App.activeModelId := Some "9" |}
                [ {| App.id := 7; App.row_name := "bracket.stl";
                     App.row_file_format := "stl" |} ]) as (_ & Hkeep & _).
    rewrite Hkeep; reflexivity.
Defined.

(** ** File names and formats on upload *)

Lemma endsWith_suffix (s suffix : string) :
  App.endsWith s suffix = true -> exists p, s = (p ++ suffix)%string.
Proof.
  induction s as [|c s IH]; cbn [App.endsWith].
  - destruct (String.eqb_spec "" suffix) as [<-|_]; [|discriminate].
    intros _. exists ""%string. reflexivity.
  - destruct (String.eqb_spec (String c s) suffix) as [<-|_].
    + intros _. exists ""%string. reflexivity.
    + intros H. destruct (IH H) as [p ->]. exists (String c p). reflexivity.
Qed.

Lemma toLowerCase_app_inv (p q : string) :
  forall n, toLowerCase n = (p ++ q)%string ->
            exists p' q', n = (p' ++ q')%string /\ toLowerCase q' = q.
Proof.
  induction p as [|c p IH]; intros n Hn.
  - exists ""%string, n. split; [reflexivity|exact Hn].
  - destruct n as [|c' n]; cbn in Hn; [discriminate|].
    injection Hn as _ Hn. destruct (IH n Hn) as (p' & q' & -> & Hq).
    exists (String c' p'), q'. split; [reflexivity|exact Hq].
Qed.

Lemma lowerAscii_letter (c d : ascii) :
  lowerAscii c = d ->
  c = d \/ (nat_of_ascii d = nat_of_ascii c + 32 /\ 65 <= nat_of_ascii c <= 90).
Proof.
  unfold lowerAscii. intros <-.
  destruct ((65 <=? nat_of_ascii c) && (nat_of_ascii c <=? 90)) eqn:E; [|left; reflexivity].
  right. apply andb_prop in E as [Hlo Hhi].
  apply Nat.leb_le in Hlo, Hhi. split; [|lia].
  apply nat_ascii_embedding. pose proof (nat_ascii_bounded c). lia.
Qed.

Lemma lowerAscii_cases (c d : ascii) :
  lowerAscii c = d ->
  c = d \/ (97 <= nat_of_ascii d <= 122 /\ c = ascii_of_nat (nat_of_ascii d - 32)).
Proof.
  intros H. destruct (lowerAscii_letter c d H) as [->|[Hd Hc]]; [left; reflexivity|].
  right. split; [lia|].
  replace (nat_of_ascii d - 32) with (nat_of_ascii c) by lia.
  symmetry. apply ascii_nat_embedding.
Qed.

Lemma split_not_nil (sep : ascii) (s : string) : App.split sep s <> [].
Proof.
  destruct s as [|c s]; cbn [App.split]; [discriminate|].
  destruct (Ascii.eqb c sep); [discriminate|].
  destruct (App.split sep s); discriminate.
Qed.

Lemma split_with_separator (sep : ascii) (p t : string) :
  exists piece piece' pieces,
    App.split sep (p ++ String sep t) = piece :: piece' :: pieces.
Proof.
  induction p as [|c p IH]; simpl.
  - rewrite Ascii.eqb_refl.
    destruct (App.split sep t) as [|x xs] eqn:E; [destruct (split_not_nil _ _ E)|].
    eauto.
  - destruct IH as (x & y & ys & ->).
    destruct (Ascii.eqb c sep); eauto.
Qed.

Lemma last_split_after_separator (sep : ascii) (p t : string) :
  last (App.split sep (p ++ String sep t)) = last (App.split sep t).
Proof.
  induction p as [|c p IH]; simpl.
  - rewrite Ascii.eqb_refl.
    destruct (App.split sep t) as [|x xs] eqn:E; [destruct (split_not_nil _ _ E)|].
    reflexivity.
  - rewrite <- IH.
    destruct (split_with_separator sep p t) as (x & y & ys & ->).
    destruct (Ascii.eqb c sep); reflexivity.
Qed.

Lemma detectFormat_of_extension (fileName extension : string) :
  (extension = "stl" \/ extension = "obj")%string ->
  App.endsWith (toLowerCase fileName) (String "." extension) = true ->
  App.detectFormat fileName = extension.
Proof.
  intros Hext Hends.
  apply endsWith_suffix in Hends as [p Hp].
  apply toLowerCase_app_inv in Hp as (p' & q' & -> & Hq).
  destruct q' as [|c0 [|c1 [|c2 [|c3 [|c4 q']]]]];
    destruct Hext as [-> | ->]; cbn in Hq; try discriminate Hq;
    injection Hq as H0 H1 H2 H3.
  all: apply lowerAscii_cases in H0, H1, H2, H3.
  all: destruct H0 as [->|[H0 _]]; [|vm_compute in H0; lia].
  all: unfold App.detectFormat; rewrite last_split_after_separator.
  all: destruct H1 as [->|[_ ->]], H2 as [->|[_ ->]], H3 as [->|[_ ->]];
    vm_compute; reflexivity.
Qed.

(** Every upload the form accepts gets a format the viewer can load.  If
    [handleFileChange] posts a form, the file name ends in ".stl" or ".obj"
    in some mix of upper and lower case, and the [file_format] it posts is
    exactly "stl" or "obj" in lower case: a format [loadModel] has a loader
    for.  If the name of the first file ends otherwise, nothing is posted
    and the upload error is set. *)
Theorem accepted_upload_has_loadable_format (files : list string)
    (u : App.UploadState) (form : App.FormData) :
  snd (App.handleFileChange files u) = Some form ->
  (App.form_file_format form = "stl" \/ App.form_file_format form = "obj")%string
  /\ loaderFor (App.form_file_format form) <> None
  /\ head files = Some (App.form_name form)
  /\ fst (App.handleFileChange files u)
     = {| App.isUploading := true; App.uploadError := None |}.
Proof.
  unfold App.handleFileChange.
  destruct files as [|fileName files]; [discriminate|].
  unfold App.supportedFileName.
  destruct (App.endsWith (toLowerCase fileName) ".stl") eqn:Hstl.
  - cbn [orb negb snd fst]. intros E. injection E as <-. cbn [App.form_file_format App.form_name].
    rewrite (detectFormat_of_extension fileName "stl") by (auto; exact Hstl).
    repeat split; [left; reflexivity|discriminate].
  - destruct (App.endsWith (toLowerCase fileName) ".obj") eqn:Hobj.
    + cbn [orb negb snd fst]. intros E. injection E as <-.
      cbn [App.form_file_format App.form_name].
      rewrite (detectFormat_of_extension fileName "obj") by (auto; exact Hobj).
      repeat split; [right; reflexivity|discriminate].
    + cbn [orb negb snd]. discriminate.
Qed.

Lemma accepted_upload_has_loadable_format_witness :
  snd (App.handleFileChange ["Bracket.v2.STL"]
         {| App.isUploading := false; App.uploadError := None |})
  = Some {| App.form_name := "Bracket.v2.STL"; App.form_file_format := "stl" |}
  /\ loaderFor "stl" <> None.
Proof.
  assert (H : snd (App.handleFileChange ["Bracket.v2.STL"]
                     {| App.isUploading := false; App.uploadError := None |})
              = Some {| App.form_name := "Bracket.v2.STL";
                        App.form_file_format := "stl" |})
    by (vm_compute; reflexivity).
  split; [exact H|].
  destruct (accepted_upload_has_loadable_format _ _ _ H) as (_ & Hloader & _).
  exact Hloader.
Defined.

Lemma toLowerCase_app (a b : string) :
  toLowerCase (a ++ b) = (toLowerCase a ++ toLowerCase b)%string.
Proof.
  induction a as [|c a IH]; [reflexivity|].
  change (toLowerCase (String c a ++ b))
    with (String (lowerAscii c) (toLowerCase (a ++ b))).
  rewrite IH. reflexivity.
Qed.

Lemma endsWith_app (p suffix : string) : App.endsWith (p ++ suffix) suffix = true.
Proof.
  induction p as [|c p IH].
  - change ("" ++ suffix)%string with suffix.
    destruct suffix; cbn [App.endsWith]; rewrite String.eqb_refl; reflexivity.
  - change (String c p ++ suffix)%string with (String c (p ++ suffix)).
    cbn [App.endsWith]. rewrite IH. destruct (String.eqb _ _); reflexivity.
Qed.

Lemma endsWith_lower_extension (fileName extension : string) :
  App.endsWith (toLowerCase fileName) (String "." extension) = true <->
  exists stem ext, fileName = (stem ++ String "." ext)%string
                   /\ toLowerCase ext = extension.
Proof.
  split.
  - intros H. apply endsWith_suffix in H as [p Hp].
    apply toLowerCase_app_inv in Hp as (stem & q & -> & Hq).
    destruct q as [|c0 ext]; cbn in Hq; [discriminate|].
    injection Hq as H0 Hext.
    apply lowerAscii_cases in H0 as [->|[H0 _]]; [|vm_compute in H0; lia].
    exists stem, ext. split; [reflexivity|exact Hext].
  - intros (stem & ext & -> & <-).
    rewrite toLowerCase_app.
    change (toLowerCase (String "." ext)) with (String "." (toLowerCase ext)).
    apply endsWith_app.
Qed.

(** Which file names the upload form accepts: exactly the names of the form
    stem.ext whose extension, put in lower case, is "stl" or "obj".  The
    stem may be empty and may itself contain dots. *)
Theorem upload_accepts_exactly (fileName : string) :
  App.supportedFileName fileName = true <->
  exists stem ext,
    fileName = (stem ++ String "." ext)%string
    /\ (toLowerCase ext = "stl" \/ toLowerCase ext = "obj")%string.
Proof.
  unfold App.supportedFileName. rewrite orb_true_iff.
  rewrite !endsWith_lower_extension. split.
  - intros [(stem & ext & E & H)|(stem & ext & E & H)]; exists stem, ext; auto.
  - intros (stem & ext & E & [H|H]); [left|right]; exists stem, ext; auto.
Qed.

(** ** The viewer: requests, errors and object URLs *)

(** Only a change of model revokes, only an arriving file registers.  An
    event other than a change of [modelId] never revokes an object URL: in
    particular the arrival of a file puts its new URL into [modelUrl] without
    releasing the one that was there.  And an event that is neither a change
    of [modelId] nor the arrival of a file leaves the registry of object URLs
    as it is. *)
Theorem revocation_only_on_model_change (e : Event) (w : World) :
  (forall id, e <> ChangeModelId id) ->
  revocations (browser (step e w)) = revocations (browser w)
  /\ ((forall k r, e <> DownloadBlob k r) ->
      object_urls (browser (step e w)) = object_urls (browser w)
      /\ next_url (browser (step e w)) = next_url (browser w)).
Proof.
  intros Hchange. unfold step, reconcile. cbn [browser].
  destruct e as [id|k r|k r|k r|k r|m|c|b|c| | |k payload|k];
    try (split; [reflexivity|intros _; split; reflexivity]).
  - destruct (Hchange id eq_refl).
  - unfold detailsResponse.
    destruct (inflight w !! k) as [[id []]|]; try (split; [|intros _; split]; reflexivity).
    destruct r as [[] status|reason]; split; try intros _; try split; reflexivity.
  - unfold detailsJson.
    destruct (inflight w !! k) as [[id []]|]; try (split; [|intros _; split]; reflexivity).
    destruct r as [reason|data]; split; try intros _; try split; reflexivity.
  - unfold downloadResponse.
    destruct (inflight w !! k) as [[id []]|]; try (split; [|intros _; split]; reflexivity).
    destruct r as [[] status|reason]; split; try intros _; try split; reflexivity.
  - unfold downloadBlob.
    destruct (inflight w !! k) as [[id []]|]; try (split; [|intros _; split]; reflexivity).
    destruct r as [reason|blob].
    + split; [|intros _; split]; reflexivity.
    + split; [reflexivity|]. intros Hblob. destruct (Hblob k (inr blob) eq_refl).
Qed.

Lemma revocation_only_on_model_change_witness :
  revocations (browser (step (DownloadBlob 0 (inr "stl bytes"))
                             (run [DetailsResponse 0 (Responded true 200);
                                   DetailsJson 0 (inr bracket);
                                   DownloadResponse 0 (Responded true 200)]
                                  (mount (Some "a")))))
  = revocations (browser (run [DetailsResponse 0 (Responded true 200);
                               DetailsJson 0 (inr bracket);
                               DownloadResponse 0 (Responded true 200)]
                              (mount (Some "a")))).
Proof.
  apply (revocation_only_on_model_change (DownloadBlob 0 (inr "stl bytes"))).
  intros id. discriminate.
Defined.

(** A failed download keeps the model of before.  Let call [k] wait for its
    download while the viewer has a non-empty [modelId], an object URL [u]
    in [modelUrl] and metadata [i] in [modelInfo].  If the server answers
    with a status that is not ok, then: the error reads "Error: Error: Failed
    to download model: <status>", [loading] is false whatever other calls
    are in flight, [modelUrl] and [modelInfo] are untouched, no object URL is
    created or revoked, and no [Model] is rendered; and once the error is
    cleared, [Model] is mounted afresh with the old URL [u] and the format of
    [i]. *)
Theorem failed_download_keeps_previous_model (w : World) (k status : nat)
    (id : string) (u : ObjectURL) (i : ModelInfo) :
  inflight w !! k = Some {| inv_modelId := id; inv_await := await_download |} ->
  truthy (modelId (viewer w)) = true ->
  modelUrl (slice (viewer w)) = Some u ->
  modelInfo (slice (viewer w)) = Some i ->
  slice (viewer (step (DownloadResponse k (Responded false status)) w))
  = {| loading := false;
       error := Some ("Error: Error: Failed to download model: " ++ pretty status)%string;
       modelUrl := Some u; modelInfo := Some i |}
  /\ browser (step (DownloadResponse k (Responded false status)) w) = browser w
  /\ inflight (step (DownloadResponse k (Responded false status)) w) = delete k (inflight w)
  /\ child (step (DownloadResponse k (Responded false status)) w) = None
  /\ child (step ClearError (step (DownloadResponse k (Responded false status)) w))
     = Some (mountModel {| url := u; fileFormat := file_format i;
                           p_viewMode := viewMode (settings (viewer w));
                           p_objectColor := objectColor (settings (viewer w)) |}).
Proof.
  intros Hk Hid Hu Hi.
  assert (Hstep : step (DownloadResponse k (Responded false status)) w
                  = reconcile (failed k (thrown ("Failed to download model: "
                                                 ++ pretty status)) w)).
  { unfold step, downloadResponse. rewrite Hk. reflexivity. }
  assert (Hrender : renderModel (viewer (failed k (thrown ("Failed to download model: "
                                                          ++ pretty status)) w)) = None).
  { unfold renderModel, failed, setLoading, setError.
    cbn [viewer withSlice modelId slice loading error].
    rewrite Hid. reflexivity. }
  rewrite Hstep. unfold reconcile at 1 2 3 4. cbn [viewer browser inflight child].
  rewrite Hrender.
  split; [|split; [reflexivity|split; [reflexivity|split; [reflexivity|]]]].
  - unfold failed, thrown, setLoading, setError.
    cbn [viewer withSlice slice loading error modelUrl modelInfo].
    rewrite Hu, Hi. reflexivity.
  - unfold step, reconcile. cbn [viewer child withSlice]. rewrite Hrender.
    unfold renderModel, failed, setLoading, setError.
    cbn [viewer withSlice modelId slice settings loading error modelUrl modelInfo truthy].
    rewrite Hid, Hu, Hi. reflexivity.
Qed.

Lemma failed_download_keeps_previous_model_witness :
  child (step ClearError
           (step (DownloadResponse 1 (Responded false 500))
                 (run [ChangeModelId (Some "b"); DetailsResponse 1 (Responded true 200);
                       DetailsJson 1 (inr gear)] shownA)))
  = Some (mountModel {| url := 0; fileFormat := "obj"; p_viewMode := mode_normal;
                        p_objectColor := "#00b8d4" |}).
Proof.
  assert (Hk : inflight (run [ChangeModelId (Some "b");
                              DetailsResponse 1 (Responded true 200);
                              DetailsJson 1 (inr gear)] shownA) !! 1
               = Some {| inv_modelId := "b"; inv_await := await_download |})
    by (vm_compute; reflexivity).
  destruct (failed_download_keeps_previous_model
              (run [ChangeModelId (Some "b"); DetailsResponse 1 (Responded true 200);
                    DetailsJson 1 (inr gear)] shownA)
              1 500 "b" 0 gear Hk) as (_ & _ & _ & _ & Hshown).
  - vm_compute. reflexivity.
  - vm_compute. reflexivity.
  - vm_compute. reflexivity.
  - rewrite Hshown. f_equal.
Defined.

(** Selecting another model.  When the viewer's [modelId] changes to a
    non-empty id it did not have, exactly one request for the metadata of
    that id is sent and one new call is in flight; [loading] is set and the
    error cleared, so no [Model] is rendered; [modelUrl] and [modelInfo]
    still hold what they held; the URL revoked at this moment, if any, is the
    one the previous effect run had seen, and the cleanup registered now
    will revoke the URL that is in [modelUrl] now. *)
Theorem selecting_a_model_starts_one_request (w : World) (id : string) :
  id <> ""%string ->
  modelId (viewer w) <> Some id ->
  slice (viewer (step (ChangeModelId (Some id)) w))
  = setError None (setLoading true (slice (viewer w)))
  /\ fetches (browser (step (ChangeModelId (Some id)) w))
     = fetches (browser w) ++ [FetchDetails id]
  /\ inflight (step (ChangeModelId (Some id)) w)
     = <[next_inv w := {| inv_modelId := id; inv_await := await_details |}]> (inflight w)
  /\ child (step (ChangeModelId (Some id)) w) = None
  /\ revocations (browser (step (ChangeModelId (Some id)) w))
     = revocations (browser w)
       ++ match cleanup (viewer w) with
          | Some (Some seen) => [seen]
          | _ => []
          end
  /\ cleanup (viewer (step (ChangeModelId (Some id)) w))
     = Some (modelUrl (slice (viewer w))).
Proof.
  intros Hne Hnew.
  assert (Hstep : changeModelId (Some id) w
                  = {| viewer := {| modelId := Some id;
                                    slice := setError None (setLoading true (slice (viewer w)));
                                    settings := settings (viewer w);
                                    cleanup := Some (modelUrl (slice (viewer w))) |};
                       child := child w;
                       inflight := <[next_inv w := {| inv_modelId := id;
                                                      inv_await := await_details |}]>
                                     (inflight w);
                       next_inv := S (next_inv w);
                       browser := fetch (FetchDetails id)
                                        (runCleanup (viewer w) (browser w)) |}).
  { unfold changeModelId. rewrite bool_decide_eq_false_2 by exact Hnew.
    unfold modelIdEffect. cbn [viewer modelId slice settings child inflight next_inv browser].
    destruct (String.eqb_spec id "") as [E|_]; [contradiction|]. reflexivity. }
  assert (Hfetch : forall v b, fetches (runCleanup v b) = fetches b).
  { intros v b. unfold runCleanup. destruct (cleanup v) as [[seen|]|]; reflexivity. }
  unfold step. rewrite Hstep. unfold reconcile.
  cbn [viewer browser inflight child slice cleanup].
  split; [reflexivity|]. split; [cbn [fetch fetches]; rewrite Hfetch; reflexivity|].
  split; [reflexivity|]. split; [|split].
  - unfold renderModel. cbn [modelId slice truthy setError setLoading loading].
    destruct (String.eqb_spec id "") as [E|_]; [contradiction|]. reflexivity.
  - unfold runCleanup. destruct (cleanup (viewer w)) as [[seen|]|];
      cbn [fetch revokeObjectURL revocations]; rewrite ?app_nil_r; reflexivity.
  - reflexivity.
Qed.

Lemma selecting_a_model_starts_one_request_witness :
  fetches (browser (step (ChangeModelId (Some "b")) shownA))
  = fetches (browser shownA) ++ [FetchDetails "b"]
  /\ cleanup (viewer (step (ChangeModelId (Some "b")) shownA)) = Some (Some 0).
Proof.
  destruct (selecting_a_model_starts_one_request shownA "b")
    as (_ & Hfetch & _ & _ & _ & Hcleanup).
  - discriminate.
  - vm_compute. discriminate.
  - split; [exact Hfetch|]. rewrite Hcleanup. vm_compute. reflexivity.
Defined.

(** Clearing the selection.  When [modelId] changes from an id to null,
    [modelUrl] and [modelInfo] are set to null and no [Model] is rendered; no
    request is sent and no call in flight is touched, so a call still under
    way will write its results later; and no cleanup is registered: the next
    change of [modelId] revokes nothing. *)
Theorem clearing_the_selection (w : World) (id : string) :
  modelId (viewer w) = Some id ->
  slice (viewer (step (ChangeModelId None) w))
  = setModelInfo None (setModelUrl None (slice (viewer w)))
  /\ fetches (browser (step (ChangeModelId None) w)) = fetches (browser w)
  /\ inflight (step (ChangeModelId None) w) = inflight w
  /\ child (step (ChangeModelId None) w) = None
  /\ cleanup (viewer (step (ChangeModelId None) w)) = None
  /\ (forall id', revocations (browser (step (ChangeModelId id')
                                             (step (ChangeModelId None) w)))
                  = revocations (browser (step (ChangeModelId None) w))).
Proof.
  intros Hid.
  assert (Hstep : changeModelId None w
                  = {| viewer := {| modelId := None;
                                    slice := setModelInfo None
                                               (setModelUrl None (slice (viewer w)));
                                    settings := settings (viewer w); cleanup := None |};
                       child := child w; inflight := inflight w; next_inv := next_inv w;
                       browser := runCleanup (viewer w) (browser w) |}).
  { unfold changeModelId. rewrite bool_decide_eq_false_2 by (rewrite Hid; discriminate).
    reflexivity. }
  assert (Hfetch : forall v b, fetches (runCleanup v b) = fetches b).
  { intros v b. unfold runCleanup. destruct (cleanup v) as [[seen|]|]; reflexivity. }
  assert (Hw1 : step (ChangeModelId None) w = reconcile (changeModelId None w))
    by reflexivity.
  rewrite Hw1, Hstep. set (w0 := reconcile _).
  assert (Hclean : cleanup (viewer w0) = None) by reflexivity.
  split; [reflexivity|]. split; [apply Hfetch|]. split; [reflexivity|].
  split; [reflexivity|]. split; [reflexivity|].
  intros id'. unfold step, reconcile at 1. cbn [browser]. unfold changeModelId.
  destruct (bool_decide (modelId (viewer w0) = id')); [reflexivity|].
  unfold modelIdEffect. cbn [viewer modelId browser]. unfold runCleanup. rewrite Hclean.
  destruct id' as [s'|]; [destruct (String.eqb s' "")|]; reflexivity.
Qed.

Lemma clearing_the_selection_witness :
  modelUrl (slice (viewer (step (ChangeModelId None) shownA))) = None
  /\ revocations (browser (step (ChangeModelId (Some "b")) (step (ChangeModelId None) shownA)))
     = revocations (browser (step (ChangeModelId None) shownA)).
Proof.
  destruct (clearing_the_selection shownA "a") as (Hslice & _ & _ & _ & _ & Hrev).
  - vm_compute. reflexivity.
  - split; [rewrite Hslice; reflexivity|apply Hrev].
Defined.
